(** * jvalue: valuation, forecast, RSI and recommendation functions of main.py

    A shallow embedding of the five pure functions of [src/main.py]
    ([gordon_model], [dcf_model], [predict_future_prices],
    [calculate_rsi_manual], [generate_recommendation]) and the
    properties the specification states about them.

    Numbers.  The program computes on binary64 floats.  Rounding and
    signed zeros are not modelled: a finite float is an exact rational
    ([Q]), compared with [==].  What is modelled of the float behaviour is
    what the control flow of the program depends on:
    - the scalar functions ([gordon_model], [dcf_model],
      [generate_recommendation]) compute on Python numbers, where a
      division by zero raises [ZeroDivisionError], and a power [**] raises
      [OverflowError] above the largest float and is 0.0 below the
      smallest (module [Py]);
    - the pandas / numpy float64 operations of [calculate_rsi_manual] do
      not raise on a division by zero: x/0 is an infinity, 0/0 is NaN, and
      both propagate (module [Np]);
    - the script of lines 163-211 passes numpy values to
      [generate_recommendation]: [generate_recommendation_numpy] is the
      same body on numpy's arithmetic, and [tab1_analysis] calls it.
    pandas and scikit-learn are libraries: modules [Pd] and [Sk] give the
    documented behaviour of the operations the program calls. *)

From Stdlib Require Import QArith Qpower Qabs ZArith List Bool String Lia Lqa.
From Stdlib Require Import Arith Sorted Ascii.
Import ListNotations.

Local Open Scope Q_scope.

(** ** Outcomes of a Python call: a returned value or a raised exception *)

Inductive exn : Type :=
| ZeroDivisionError
| OverflowError
| IndexError
| ValueError.

Inductive outcome (A : Type) : Type :=
| Return (a : A)
| Raise (e : exn).

Arguments Return {A} a.
Arguments Raise {A} e.

Definition bind {A B : Type} (m : outcome A) (k : A -> outcome B) : outcome B :=
  match m with
  | Return a => k a
  | Raise e => Raise e
  end.

Notation "x <- m ;; k" := (bind m (fun x => k))
  (at level 61, m at next level, right associativity).

(** ** Python float arithmetic (exact on finite values) *)

Module Py.

(** [a < b] as a boolean. *)
Definition ltb (a b : Q) : bool := negb (Qle_bool b a).
(** [a <= b] as a boolean. *)
Definition leb (a b : Q) : bool := Qle_bool a b.
(** [a > b]. *)
Definition gtb (a b : Q) : bool := ltb b a.

(** [a / b]: raises [ZeroDivisionError] when [b] is zero. *)
Definition div (a b : Q) : outcome Q :=
  if Qeq_bool b 0 then Raise ZeroDivisionError else Return (a / b).

(** The largest float, (2 - 2^-52) 2^1023, and the smallest positive one,
    2^-1074. *)
Definition max_float : Q := inject_Z (2 ^ 1024 - 2 ^ 971).
Definition min_float : Q := 1 # (2 ^ 1074).

(** [a ** n] for a non-negative integer exponent [n]: raises
    [OverflowError] when the power is above the largest float, and is 0.0
    when it is too small to be a float.  The two thresholds are taken on
    the exact power. *)
Definition pow (a : Q) (n : nat) : outcome Q :=
  let p := a ^ Z.of_nat n in
  if ltb max_float (Qabs p) then Raise OverflowError
  else if ltb (Qabs p) min_float then Return 0
  else Return p.

(** [l[-1]]: raises [IndexError] on the empty list. *)
Definition last_item {A : Type} (l : list A) : outcome A :=
  match rev l with
  | [] => Raise IndexError
  | x :: _ => Return x
  end.

End Py.

(** ** numpy / pandas float64 values (exact on finite values) *)

Module Np.

Inductive float64 : Type :=
| NaN
| PInf
| NInf
| Fin (q : Q).

Definition is_nan (x : float64) : bool :=
  match x with NaN => true | _ => false end.

Definition neg (x : float64) : float64 :=
  match x with
  | NaN => NaN
  | PInf => NInf
  | NInf => PInf
  | Fin a => Fin (- a)
  end.

Definition add (x y : float64) : float64 :=
  match x, y with
  | NaN, _ | _, NaN => NaN
  | PInf, NInf | NInf, PInf => NaN
  | PInf, _ | _, PInf => PInf
  | NInf, _ | _, NInf => NInf
  | Fin a, Fin b => Fin (a + b)
  end.

Definition sub (x y : float64) : float64 := add x (neg y).

(** Division does not raise: x/0 is an infinity of the sign of x, 0/0 and
    inf/inf are NaN, and a finite value over an infinity is 0. *)
Definition div (x y : float64) : float64 :=
  match x, y with
  | NaN, _ | _, NaN => NaN
  | Fin a, Fin b =>
      if Qeq_bool b 0 then
        if Qeq_bool a 0 then NaN
        else if Py.ltb 0 a then PInf else NInf
      else Fin (a / b)
  | Fin _, (PInf | NInf) => Fin 0
  | (PInf | NInf), (PInf | NInf) => NaN
  | PInf, Fin b => if Py.ltb b 0 then NInf else PInf
  | NInf, Fin b => if Py.ltb b 0 then PInf else NInf
  end.

(** [x > y]; every comparison with NaN is [False]. *)
Definition gtb (x y : float64) : bool :=
  match x, y with
  | NaN, _ | _, NaN => false
  | PInf, PInf => false
  | PInf, _ => true
  | _, PInf => false
  | NInf, _ => false
  | Fin _, NInf => true
  | Fin a, Fin b => Py.gtb a b
  end.

(** [x < y]. *)
Definition ltb (x y : float64) : bool := gtb y x.

(** [x <= y]. *)
Definition leb (x y : float64) : bool :=
  match x, y with
  | NaN, _ | _, NaN => false
  | _, _ => negb (gtb x y)
  end.

(** [x * y]; an infinity times zero is NaN. *)
Definition mul (x y : float64) : float64 :=
  match x, y with
  | NaN, _ | _, NaN => NaN
  | Fin a, Fin b => Fin (a * b)
  | PInf, PInf | NInf, NInf => PInf
  | PInf, NInf | NInf, PInf => NInf
  | PInf, Fin b | Fin b, PInf =>
      if Qeq_bool b 0 then NaN else if Py.ltb 0 b then PInf else NInf
  | NInf, Fin b | Fin b, NInf =>
      if Qeq_bool b 0 then NaN else if Py.ltb 0 b then NInf else PInf
  end.

Definition sum (l : list float64) : float64 := fold_right add (Fin 0) l.

Definition of_nat (n : nat) : float64 := Fin (inject_Z (Z.of_nat n)).

End Np.

(** ** The pandas operations that [calculate_rsi_manual] uses *)

Module Pd.

(** A float64 column; its index is the position in the list. *)
Definition Series : Type := list Np.float64.

(** [s.diff()]: NaN first, then s[i] - s[i-1]. *)
Definition diff (s : Series) : Series :=
  match s with
  | [] => []
  | _ :: t => Np.NaN :: map (fun p => Np.sub (fst p) (snd p)) (combine t s)
  end.

(** [s > c] and [s < c] for a scalar [c]. *)
Definition gt (s : Series) (c : Np.float64) : list bool :=
  map (fun x => Np.gtb x c) s.

Definition lt (s : Series) (c : Np.float64) : list bool :=
  map (fun x => Np.ltb x c) s.

(** [s.where(cond, other)]: keeps s[i] where cond[i] holds, [other]
    elsewhere. *)
Definition where_ (s : Series) (cond : list bool) (other : Np.float64)
  : Series :=
  map (fun p : Np.float64 * bool => if snd p then fst p else other)
      (combine s cond).

(** [-s]. *)
Definition neg (s : Series) : Series := map Np.neg s.

(** The trailing window that ends at index [i]: the last [window] entries
    of s[0..i], fewer at the start of the series. *)
Definition trailing (window i : nat) (s : Series) : Series :=
  skipn (i + 1 - window) (firstn (i + 1) s).

(** The mean of a window with [min_periods]: NaN unless the window has at
    least [min_periods] observations (entries that are not NaN), and at
    least one. *)
Definition window_mean (min_periods : nat) (w : Series) : Np.float64 :=
  let obs := filter (fun x => negb (Np.is_nan x)) w in
  let nobs := List.length obs in
  if (nobs <? min_periods)%nat || (nobs =? 0)%nat then Np.NaN
  else Np.div (Np.sum obs) (Np.of_nat nobs).

(** [s.rolling(window=window).mean()]; min_periods defaults to the
    window. *)
Definition rolling_mean (window : nat) (s : Series) : Series :=
  map (fun i => window_mean window (trailing window i s))
      (seq 0 (List.length s)).

(** [a / b], entry by entry. *)
Definition div (a b : Series) : Series :=
  map (fun p => Np.div (fst p) (snd p)) (combine a b).

End Pd.

(** The price table: the one column the functions read. *)
Record DataFrame : Type := { Close : Pd.Series }.

(** The sum of a list of numbers. *)
Definition qsum (l : list Q) : Q := fold_right Qplus 0 l.

(** ** The scikit-learn estimator that [predict_future_prices] uses *)

Module Sk.

(** A fitted [LinearRegression()] with one feature: [coef_[0]] and
    [intercept_]. *)
Record LinearRegression : Type := { coef_ : Q; intercept_ : Q }.

Definition mean (l : list Q) : Q :=
  qsum l / inject_Z (Z.of_nat (List.length l)).

Definition center (m : Q) (l : list Q) : list Q := map (fun x => x - m) l.

Definition dot (xs ys : list Q) : Q :=
  qsum (map (fun p => fst p * snd p) (combine xs ys)).

(** Input validation: an array that holds NaN or an infinity is refused. *)
Fixpoint as_finite (y : Pd.Series) : option (list Q) :=
  match y with
  | [] => Some []
  | Np.Fin q :: t => option_map (cons q) (as_finite t)
  | _ :: _ => None
  end.

(** [model.fit(X, y)] for a single column [X], with the default
    [fit_intercept=True]: both arrays are validated (at least one sample,
    finite values, equal lengths) and centred on their means; the
    coefficient is the minimum-norm least-squares solution of the centred
    system, which is 0 when all the centred [X] are 0; the intercept is
    mean(y) - mean(X) * coef. *)
Definition fit (X : list Q) (y : Pd.Series) : outcome LinearRegression :=
  if (List.length X =? 0)%nat then Raise ValueError
  else
    match as_finite y with
    | None => Raise ValueError
    | Some ys =>
        if negb (List.length X =? List.length ys)%nat then Raise ValueError
        else
          let X_offset := mean X in
          let y_offset := mean ys in
          let Xc := center X_offset X in
          let yc := center y_offset ys in
          let sxx := dot Xc Xc in
          let coef := if Qeq_bool sxx 0 then 0 else dot Xc yc / sxx in
          Return {| coef_ := coef;
                    intercept_ := y_offset - X_offset * coef |}
    end.

(** [model.predict(X)]: X @ coef_ + intercept_; an array without samples
    is refused. *)
Definition predict (model : LinearRegression) (X : list Q)
  : outcome (list Q) :=
  if (List.length X =? 0)%nat then Raise ValueError
  else Return (map (fun x => x * coef_ model + intercept_ model) X).

End Sk.

(** ** RSI, main.py 14-20 *)

(** The local [delta]. *)
Definition rsi_delta (data : DataFrame) : Pd.Series := Pd.diff (Close data).

(** The local [gain]: (delta.where(delta > 0, 0)).rolling(period).mean(). *)
Definition rsi_gain (data : DataFrame) (period : nat) : Pd.Series :=
  let delta := rsi_delta data in
  Pd.rolling_mean period (Pd.where_ delta (Pd.gt delta (Np.Fin 0)) (Np.Fin 0)).

(** The local [loss]: (-delta.where(delta < 0, 0)).rolling(period).mean();
    the minus sign applies to the result of [where]. *)
Definition rsi_loss (data : DataFrame) (period : nat) : Pd.Series :=
  let delta := rsi_delta data in
  Pd.rolling_mean period
    (Pd.neg (Pd.where_ delta (Pd.lt delta (Np.Fin 0)) (Np.Fin 0))).

(** 100 - (100 / (1 + rs)) for one entry. *)
Definition rsi_of_rs (rs : Np.float64) : Np.float64 :=
  Np.sub (Np.Fin 100) (Np.div (Np.Fin 100) (Np.add (Np.Fin 1) rs)).

Definition calculate_rsi_manual (data : DataFrame) (period : nat)
  : Pd.Series :=
  let gain := rsi_gain data period in
  let loss := rsi_loss data period in
  let rs := Pd.div gain loss in
  map rsi_of_rs rs.

(** A table of finite prices. *)
Definition prices_table (prices : list Q) : DataFrame :=
  {| Close := map Np.Fin prices |}.

(** ** Valuation functions *)

(** [gordon_model(dividend, growth_rate, discount_rate)], main.py 23-26.
    [None] is Python's [None]. *)
Definition gordon_model (dividend growth_rate discount_rate : Q)
  : outcome (option Q) :=
  if Py.leb discount_rate growth_rate then Return None
  else
    v <- Py.div dividend (discount_rate - growth_rate) ;;
    Return (Some v).

(** The [for i, cf in enumerate(cash_flows)] loop of [dcf_model], main.py
    32-33, started at index [i] with accumulator [present_value]. *)
Fixpoint dcf_loop (i : nat) (cash_flows : list Q) (discount_rate : Q)
  (present_value : Q) : outcome Q :=
  match cash_flows with
  | [] => Return present_value
  | cf :: rest =>
      power <- Py.pow (1 + discount_rate) (i + 1) ;;
      t <- Py.div cf power ;;
      dcf_loop (S i) rest discount_rate (present_value + t)
  end.

(** [dcf_model(cash_flows, discount_rate, terminal_growth_rate)], main.py
    28-36, on Python numbers: a division by zero raises (equal rates, or a
    power that underflowed to 0.0), and so does a power that overflows. *)
Definition dcf_model (cash_flows : list Q)
  (discount_rate terminal_growth_rate : Q) : outcome (option Q) :=
  match cash_flows with
  | [] => Return None
  | _ :: _ =>
      present_value <- dcf_loop 0 cash_flows discount_rate 0 ;;
      last_cf <- Py.last_item cash_flows ;;
      terminal_value <-
        Py.div (last_cf * (1 + terminal_growth_rate))
               (discount_rate - terminal_growth_rate) ;;
      power <- Py.pow (1 + discount_rate) (List.length cash_flows) ;;
      discounted <- Py.div terminal_value power ;;
      Return (Some (present_value + discounted))
  end.

(** ** Forecast, main.py 38-45 *)

(** An index of [range] as a float. *)
Definition idx (i : nat) : Q := inject_Z (Z.of_nat i).

(** [np.array(range(start, start + count)).reshape(-1, 1)]; a negative
    count gives the empty range. *)
Definition index_column (start : nat) (count : Z) : list Q :=
  map idx (seq start (Z.to_nat count)).

Definition predict_future_prices (data : DataFrame) (days : Z)
  : outcome (list Q) :=
  let n := List.length (Close data) in
  let X := index_column 0 (Z.of_nat n) in
  let y := Close data in
  model <- Sk.fit X y ;;
  let future_X := index_column n days in
  Sk.predict model future_X.

(** ** Recommendation *)

Local Open Scope string_scope.

(** The literals of main.py 120-136.  The specification names them in
    English: "Insufficient data" / "Cannot generate a recommendation.",
    "Strong Opportunity", "Moderate Opportunity", "Weak Opportunity". *)
Definition Dados_insuficientes : string * string :=
  ("Dados insuficientes", "Não é possível gerar uma recomendação.").

Definition Forte_Oportunidade : string * string :=
  ("Forte Oportunidade",
   "Considerar investimento. O ativo está subvalorizado e tem potencial de crescimento.").

Definition Oportunidade_Moderada_subvalorizado : string * string :=
  ("Oportunidade Moderada",
   "Considerar investimento. O ativo está subvalorizado, mas o crescimento futuro é incerto.").

Definition Oportunidade_Moderada_cautela : string * string :=
  ("Oportunidade Moderada",
   "Cautela. O ativo pode estar sobrevalorizado, mas há potencial de crescimento.").

Definition Fraca_Oportunidade : string * string :=
  ("Fraca Oportunidade",
   "Evitar investimento. O ativo está sobrevalorizado e com baixo potencial de crescimento.").

Local Close Scope string_scope.

(** [generate_recommendation(fair_price, current_price, future_prices)],
    main.py 118-138, on Python numbers: the division of line 123 raises
    [ZeroDivisionError] at a zero price.  An argument that is [None] in
    Python is [None] here.  On numpy values the division does not raise:
    that reading is [generate_recommendation_numpy] below. *)
Definition generate_recommendation (fair_price current_price : option Q)
  (future_prices : option (list Q)) : outcome (string * string) :=
  match fair_price, current_price, future_prices with
  | Some fair_price, Some current_price, Some future_prices =>
      let margin := fair_price - current_price in
      last_price <- Py.last_item future_prices ;;
      ratio <- Py.div (last_price - current_price) current_price ;;
      let future_growth := ratio * 100 in
      if Py.gtb margin 0 && Py.gtb future_growth 0 then
        Return Forte_Oportunidade
      else if Py.gtb margin 0 && Py.leb future_growth 0 then
        Return Oportunidade_Moderada_subvalorizado
      else if Py.leb margin 0 && Py.gtb future_growth 0 then
        Return Oportunidade_Moderada_cautela
      else
        Return Fraca_Oportunidade
  | _, _, _ => Return Dados_insuficientes
  end.

(** ** Definitions used to state the properties *)



(** The square of a number. *)
Definition sq (x : Q) : Q := x * x.

(** The sum of the squared residuals of the line y = a x + b over a list
    of pairs (x, y): what ordinary least squares minimizes. *)
Definition squared_residuals (a b : Q) (pairs : list (Q * Q)) : Q :=
  qsum (map (fun p => sq (snd p - (a * fst p + b))) pairs).

(** The pairs (index i, price[i]), i = 0..L-1. *)
Definition index_price_pairs (prices : list Q) : list (Q * Q) :=
  combine (map idx (seq 0 (List.length prices))) prices.

(** The line that [Sk.fit] computes from the indexes 0..L-1 and a non-empty
    finite price series (lemma [fit_prices]). *)
Definition fitted_line (prices : list Q) : Sk.LinearRegression :=
  let X := index_column 0 (Z.of_nat (List.length prices)) in
  let Xc := Sk.center (Sk.mean X) X in
  let yc := Sk.center (Sk.mean prices) prices in
  let coef :=
    if Qeq_bool (Sk.dot Xc Xc) 0 then 0 else Sk.dot Xc yc / Sk.dot Xc Xc in
  {| Sk.coef_ := coef;
     Sk.intercept_ := Sk.mean prices - Sk.mean X * coef |}.

(** A value that is finite or NaN: an entry of [delta] on finite prices. *)
Definition fin_or_nan (x : Np.float64) : Prop :=
  match x with Np.NaN | Np.Fin _ => True | _ => False end.

(** A finite non-negative value: a term of the gain and loss series. *)
Definition nonneg_fin (x : Np.float64) : Prop :=
  match x with Np.Fin q => 0 <= q | _ => False end.

(** ** Definitions used to state further properties *)


(** The terms that [rsi_gain] and [rsi_loss] average over a window:
    delta.where(delta > 0, 0) and -delta.where(delta < 0, 0). *)
Definition gain_terms (data : DataFrame) : Pd.Series :=
  Pd.where_ (rsi_delta data) (Pd.gt (rsi_delta data) (Np.Fin 0)) (Np.Fin 0).

Definition loss_terms (data : DataFrame) : Pd.Series :=
  Pd.neg (Pd.where_ (rsi_delta data) (Pd.lt (rsi_delta data) (Np.Fin 0))
            (Np.Fin 0)).

(** A finite value that is zero, and one that is positive. *)
Definition zero_fin (x : Np.float64) : Prop :=
  match x with Np.Fin q => q == 0 | _ => False end.

Definition pos_fin (x : Np.float64) : Prop :=
  match x with Np.Fin q => 0 < q | _ => False end.

(** A finite float64 value: neither NaN nor an infinity. *)
Definition finite (x : Np.float64) : Prop :=
  match x with Np.Fin _ => True | _ => False end.

(** ** The analysis of one ticker, main.py 163-211

    The part of the script that calls the functions above, from the
    dividend to the recommendation.  The widgets and the displayed text
    are not modelled; what is modelled is which variables get bound, and
    which statements raise. *)

(** What can end the script: an exception of the functions it calls, the
    use of a name that was never assigned, or a format specification
    applied to [None]. *)
Inductive script_error : Type :=
| Uncaught (e : exn)
| NameError
| TypeError.

Inductive script_result (A : Type) : Type :=
| Completed (a : A)
| Aborted (e : script_error).

Arguments Completed {A} a.
Arguments Aborted {A} e.

Definition script_bind {A B : Type} (m : script_result A)
  (k : A -> script_result B) : script_result B :=
  match m with
  | Completed a => k a
  | Aborted e => Aborted e
  end.

Notation "x <-- m ;; k" := (script_bind m (fun x => k))
  (at level 61, m at next level, right associativity).

(** A call that is not inside a [try]. *)
Definition uncaught {A : Type} (m : outcome A) : script_result A :=
  match m with
  | Return a => Completed a
  | Raise e => Aborted (Uncaught e)
  end.

(** A call inside [try: ... except Exception]: [None] when it raised. *)
Definition caught {A : Type} (m : outcome A) : option A :=
  match m with
  | Return a => Some a
  | Raise _ => None
  end.

(** [f"{v:.2f}"]: the format specification is refused by [None]. *)
Definition format_2f (v : option Q) : script_result unit :=
  match v with
  | Some _ => Completed tt
  | None => Aborted TypeError
  end.

(** The truth value of a number or [None] in a condition. *)
Definition truthy (v : option Q) : bool :=
  match v with
  | Some q => negb (Qeq_bool q 0)
  | None => false
  end.

(** [stock.dividends.mean() if not stock.dividends.empty else 0],
    main.py 163. *)
Definition mean_dividend (dividends : list Q) : Q :=
  match dividends with
  | [] => 0
  | _ :: _ => qsum dividends / inject_Z (Z.of_nat (List.length dividends))
  end.

(** [generate_recommendation] on the values that the script passes at line
    209: the current price is a numpy.float64 and the forecast an ndarray,
    so that the arithmetic of lines 122-123 is numpy's.  The division does
    not raise at a zero price: it yields an infinity or NaN, and the
    comparisons go on.  [fair_price] and [future_prices] may be [None]. *)
Definition generate_recommendation_numpy (fair_price : option Q)
  (current_price : Q) (future_prices : option (list Q))
  : outcome (string * string) :=
  match fair_price, future_prices with
  | Some fair_price, Some future_prices =>
      let margin := Np.sub (Np.Fin fair_price) (Np.Fin current_price) in
      last_price <- Py.last_item future_prices ;;
      let future_growth :=
        Np.mul (Np.div (Np.sub (Np.Fin last_price) (Np.Fin current_price))
                       (Np.Fin current_price))
               (Np.Fin 100) in
      if Np.gtb margin (Np.Fin 0) && Np.gtb future_growth (Np.Fin 0) then
        Return Forte_Oportunidade
      else if Np.gtb margin (Np.Fin 0) && Np.leb future_growth (Np.Fin 0) then
        Return Oportunidade_Moderada_subvalorizado
      else if Np.leb margin (Np.Fin 0) && Np.gtb future_growth (Np.Fin 0) then
        Return Oportunidade_Moderada_cautela
      else
        Return Fraca_Oportunidade
  | _, _ => Return Dados_insuficientes
  end.

(** Main.py 163-211 for one ticker.  [cash_flows] is the outcome of the
    list comprehension of line 173; [days] is left at its default, 30.  A
    variable assigned under a condition or inside a [try] is an [option]:
    [None] when the assignment did not happen.  The result is the fair
    price that the recommendation uses, and the recommendation.  The
    current price and the forecast are numpy values: the profit forecast of
    line 204 and the call of line 209 compute with numpy's arithmetic. *)
Definition tab1_analysis (dividends : list Q) (growth_rate discount_rate : Q)
  (cash_flows : outcome (list Q)) (terminal_growth_rate : Q)
  (prices : list Q) : script_result (option Q * (string * string)) :=
  let data := prices_table prices in
  let dividend := mean_dividend dividends in
  (* 167-169 *)
  fair_price_gordon <--
    (if Py.gtb dividend 0 then
       g <-- uncaught (gordon_model dividend growth_rate discount_rate) ;;
       _ <-- format_2f g ;;
       Completed (Some g)
     else Completed None) ;;
  (* 172-181: whatever is raised there is caught *)
  let fair_price_dcf :=
    caught (cfs <- cash_flows ;;
            dcf_model cfs discount_rate terminal_growth_rate) in
  (* 185-190 *)
  let future_prices := caught (predict_future_prices data 30) in
  (* 194 *)
  current_price <-- uncaught (Py.last_item prices) ;;
  (* 195 *)
  fair_price <--
    match fair_price_gordon with
    | None => Aborted NameError
    | Some g =>
        if truthy g then Completed g
        else match fair_price_dcf with
             | None => Aborted NameError
             | Some d => Completed d
             end
    end ;;
  (* 203-207 *)
  _ <--
    match future_prices with
    | Some f =>
        uncaught (last_price <- Py.last_item f ;;
                  Return (Np.mul
                            (Np.div (Np.sub (Np.Fin last_price)
                                            (Np.Fin current_price))
                                    (Np.Fin current_price))
                            (Np.Fin 100)))
    | None => Completed Np.NaN
    end ;;
  (* 209 *)
  result <-- uncaught (generate_recommendation_numpy fair_price
                         current_price future_prices) ;;
  Completed (fair_price, result).

(** ** The ticker list, main.py 145

    [[ticker.strip().upper() for ticker in tickers.split(",")]
     if tickers else []], on ASCII text. *)

Module Str.

Local Open Scope string_scope.

(** [s.split(",")]: the pieces between the commas; one piece more than
    there are commas. *)
Fixpoint split_comma (s : string) : list string :=
  match s with
  | EmptyString => [EmptyString]
  | String c s' =>
      if Ascii.eqb c ","%char then EmptyString :: split_comma s'
      else match split_comma s' with
           | piece :: pieces => String c piece :: pieces
           | [] => [String c EmptyString]
           end
  end.

(** The ASCII characters that [strip] removes: tab, line feed, vertical
    tab, form feed, carriage return, the four separators 28-31 and the
    space. *)
Definition is_space (c : ascii) : bool :=
  let n := nat_of_ascii c in
  ((9 <=? n) && (n <=? 13) || (28 <=? n) && (n <=? 32))%nat.

Fixpoint lstrip (s : string) : string :=
  match s with
  | EmptyString => EmptyString
  | String c s' => if is_space c then lstrip s' else s
  end.

Fixpoint rstrip (s : string) : string :=
  match s with
  | EmptyString => EmptyString
  | String c s' =>
      match rstrip s' with
      | EmptyString => if is_space c then EmptyString
                       else String c EmptyString
      | r => String c r
      end
  end.

(** [s.strip()]. *)
Definition strip (s : string) : string := rstrip (lstrip s).

Definition upper_char (c : ascii) : ascii :=
  let n := nat_of_ascii c in
  if ((97 <=? n) && (n <=? 122))%nat then ascii_of_nat (n - 32) else c.

(** [s.upper()]. *)
Fixpoint upper (s : string) : string :=
  match s with
  | EmptyString => EmptyString
  | String c s' => String (upper_char c) (upper s')
  end.

End Str.

Definition ticker_list (tickers : string) : list string :=
  match tickers with
  | EmptyString => []
  | String _ _ =>
      map (fun ticker => Str.upper (Str.strip ticker))
          (Str.split_comma tickers)
  end.

(** The number of commas of a text. *)
Fixpoint count_commas (s : string) : nat :=
  match s with
  | EmptyString => 0
  | String c s' =>
      if Ascii.eqb c ","%char then S (count_commas s') else count_commas s'
  end.

(** A text that does not start with a character that [strip] removes. *)
Definition no_leading_space (s : string) : Prop :=
  match s with
  | EmptyString => True
  | String c _ => Str.is_space c = false
  end.

(** Equality of two float64 values: the same special value, or finite
    values that are equal as rationals. *)
Definition float_eq (x y : Np.float64) : Prop :=
  match x, y with
  | Np.Fin a, Np.Fin b => a == b
  | Np.NaN, Np.NaN | Np.PInf, Np.PInf | Np.NInf, Np.NInf => True
  | _, _ => False
  end.

(** [x'] is the finite value [x] multiplied by [k]. *)
Definition scaled (k : Q) (x' x : Np.float64) : Prop :=
  match x', x with
  | Np.Fin a', Np.Fin a => a' == k * a
  | _, _ => False
  end.

(** The price [p] in another unit and from another origin. *)
Definition affine (k c p : Q) : Q := k * p + c.


(** * Properties *)

(** ** Basic facts on the boolean comparisons *)

Lemma Py_leb_true (a b : Q) : Py.leb a b = true <-> a <= b.
Proof. unfold Py.leb. apply Qle_bool_iff. Qed.

Lemma Py_leb_false (a b : Q) : Py.leb a b = false <-> b < a.
Proof.
  unfold Py.leb. split; intros H.
  - apply Qnot_le_lt. intros Hle. apply Qle_bool_iff in Hle. congruence.
  - destruct (Qle_bool a b) eqn:E; [|reflexivity].
    apply Qle_bool_iff in E. exfalso. apply (Qlt_not_le _ _ H E).
Qed.

Lemma Py_ltb_true (a b : Q) : Py.ltb a b = true <-> a < b.
Proof.
  unfold Py.ltb. rewrite negb_true_iff. apply Py_leb_false.
Qed.

Lemma Py_ltb_false (a b : Q) : Py.ltb a b = false <-> b <= a.
Proof.
  unfold Py.ltb. rewrite negb_false_iff. apply Py_leb_true.
Qed.

Lemma Py_gtb_true (a b : Q) : Py.gtb a b = true <-> b < a.
Proof. unfold Py.gtb. apply Py_ltb_true. Qed.

Lemma Py_gtb_false (a b : Q) : Py.gtb a b = false <-> a <= b.
Proof. unfold Py.gtb. apply Py_ltb_false. Qed.

Lemma Py_div_nonzero (a b : Q) : ~ b == 0 -> Py.div a b = Return (a / b).
Proof.
  intros H. unfold Py.div.
  destruct (Qeq_bool b 0) eqn:E; [|reflexivity].
  apply Qeq_bool_iff in E. contradiction.
Qed.

Lemma Py_div_zero (a b : Q) : b == 0 -> Py.div a b = Raise ZeroDivisionError.
Proof.
  intros H. unfold Py.div. apply Qeq_bool_iff in H. now rewrite H.
Qed.

(** ** Gordon growth model *)

(** C2: for every dividend, growth rate and discount rate, if
    discount_rate > growth_rate then [gordon_model] returns exactly
    dividend / (discount_rate - growth_rate) (the division cannot raise),
    and if discount_rate <= growth_rate it returns [None], whatever the
    dividend and the growth rate are. *)
Theorem gordon_model_spec (dividend growth_rate discount_rate : Q) :
  (growth_rate < discount_rate ->
   gordon_model dividend growth_rate discount_rate
   = Return (Some (dividend / (discount_rate - growth_rate))))
  /\
  (discount_rate <= growth_rate ->
   gordon_model dividend growth_rate discount_rate = Return None).
Proof.
  unfold gordon_model. split; intros H.
  - apply Py_leb_false in H. rewrite H.
    apply Py_leb_false in H.
    rewrite Py_div_nonzero; [reflexivity|]. lra.
  - apply Py_leb_true in H. now rewrite H.
Qed.

Lemma gordon_model_spec_witness :
  (5 # 100) < (10 # 100) /\
  gordon_model 2 (5 # 100) (10 # 100)
  = Return (Some (2 / ((10 # 100) - (5 # 100)))) /\
  (5 # 100) <= (5 # 100) /\
  gordon_model 2 (5 # 100) (5 # 100) = Return None.
Proof.
  split; [reflexivity|]. split.
  - apply (proj1 (gordon_model_spec 2 (5 # 100) (10 # 100))). reflexivity.
  - split; [discriminate|].
    apply (proj2 (gordon_model_spec 2 (5 # 100) (5 # 100))). discriminate.
Defined.

(** ** Discounted cash flow *)

Lemma qsum_cons (x : Q) (l : list Q) : qsum (x :: l) = x + qsum l.
Proof. reflexivity. Qed.

(** *** The range of a float and the powers of a number *)













(** *** The loop and the model *)




(** The part of C1 that the code implements: no cash flows, no value. *)
Lemma dcf_model_empty (discount_rate terminal_growth_rate : Q) :
  dcf_model [] discount_rate terminal_growth_rate = Return None.
Proof. reflexivity. Qed.

(** C1 (the code departs from the claim): the claim says that [dcf_model]
    returns the "unavailable" value, and never raises, whenever the cash
    flows are empty or discount_rate <= terminal_growth_rate.  The code has
    the guard for the empty list only.  With cash_flows = [100],
    discount_rate = 0.03 <= terminal_growth_rate = 0.05 it returns the
    number -5000, and with discount_rate = terminal_growth_rate = 0.05 the
    division by zero raises. *)
Theorem dcf_model_rate_not_guarded :
  (3 # 100) <= (5 # 100) /\
  (exists v, dcf_model [100] (3 # 100) (5 # 100) = Return (Some v)
             /\ v == - (5000)) /\
  dcf_model [100] (5 # 100) (5 # 100) = Raise ZeroDivisionError.
Proof.
  split; [discriminate|]. split.
  - eexists. split; [vm_compute; reflexivity|]. vm_compute. reflexivity.
  - vm_compute. reflexivity.
Qed.




(** ** RSI: the shape of the intermediate series *)

Lemma where_map (f : Np.float64 -> bool) (other : Np.float64) (s : Pd.Series) :
  Pd.where_ s (map f s) other = map (fun x => if f x then x else other) s.
Proof.
  unfold Pd.where_. induction s as [|x s IH]; [reflexivity|].
  cbn [map combine fst snd]. f_equal. exact IH.
Qed.

Lemma diff_length (s : Pd.Series) : List.length (Pd.diff s) = List.length s.
Proof.
  destruct s as [|x t]; [reflexivity|].
  cbn [Pd.diff List.length]. rewrite length_map, length_combine.
  cbn [List.length]. lia.
Qed.

Lemma diff_fin_or_nan (prices : list Q) :
  Forall fin_or_nan (Pd.diff (map Np.Fin prices)).
Proof.
  destruct prices as [|p t]; [constructor|].
  cbn [map Pd.diff]. constructor; [exact I|].
  apply Forall_forall. intros x Hx. apply in_map_iff in Hx.
  destruct Hx as [[a b] [<- Hin]].
  assert (Ha := in_combine_l _ _ _ _ Hin).
  assert (Hb := in_combine_r _ _ _ _ Hin).
  apply in_map_iff in Ha. destruct Ha as [qa [<- _]].
  change (In b (map Np.Fin (p :: t))) in Hb.
  apply in_map_iff in Hb. destruct Hb as [qb [<- _]].
  exact I.
Qed.

Lemma gain_terms_nonneg (delta : Pd.Series) :
  Forall fin_or_nan delta ->
  Forall nonneg_fin
    (Pd.where_ delta (Pd.gt delta (Np.Fin 0)) (Np.Fin 0)).
Proof.
  intros H. unfold Pd.gt. rewrite where_map. apply Forall_map.
  eapply Forall_impl; [|exact H].
  intros [| | |q] Hq; cbn; try contradiction; try discriminate.
  destruct (Py.gtb q 0) eqn:E; cbn.
  - apply Py_gtb_true in E. lra.
  - discriminate.
Qed.

Lemma loss_terms_nonneg (delta : Pd.Series) :
  Forall fin_or_nan delta ->
  Forall nonneg_fin
    (Pd.neg (Pd.where_ delta (Pd.lt delta (Np.Fin 0)) (Np.Fin 0))).
Proof.
  intros H. unfold Pd.lt, Pd.neg. rewrite where_map. rewrite map_map.
  apply Forall_map. eapply Forall_impl; [|exact H].
  intros [| | |q] Hq; cbn; try contradiction; try discriminate.
  unfold Np.ltb. cbn.
  destruct (Py.gtb 0 q) eqn:E; cbn.
  - apply Py_gtb_true in E. lra.
  - discriminate.
Qed.

Lemma where_length (s : Pd.Series) (f : Np.float64 -> bool)
  (other : Np.float64) :
  List.length (Pd.where_ s (map f s) other) = List.length s.
Proof. rewrite where_map. apply length_map. Qed.

Lemma rolling_mean_length (w : nat) (s : Pd.Series) :
  List.length (Pd.rolling_mean w s) = List.length s.
Proof. unfold Pd.rolling_mean. now rewrite length_map, length_seq. Qed.

Lemma rolling_mean_nth (w i : nat) (s : Pd.Series) :
  (i < List.length s)%nat ->
  nth i (Pd.rolling_mean w s) Np.NaN
  = Pd.window_mean w (Pd.trailing w i s).
Proof.
  intros Hi. unfold Pd.rolling_mean.
  rewrite (nth_indep _ Np.NaN (Pd.window_mean w (Pd.trailing w 0 s)))
    by now rewrite length_map, length_seq.
  rewrite (map_nth (fun i => Pd.window_mean w (Pd.trailing w i s))).
  now rewrite seq_nth.
Qed.

Lemma trailing_length (w i : nat) (s : Pd.Series) :
  (i < List.length s)%nat ->
  List.length (Pd.trailing w i s) = Nat.min w (i + 1).
Proof.
  intros Hi. unfold Pd.trailing. rewrite length_skipn, length_firstn. lia.
Qed.

Lemma trailing_Forall (P : Np.float64 -> Prop) (w i : nat) (s : Pd.Series) :
  Forall P s -> Forall P (Pd.trailing w i s).
Proof.
  intros H. unfold Pd.trailing.
  rewrite <- (firstn_skipn (i + 1) s) in H.
  apply Forall_app in H. destruct H as [H _].
  rewrite <- (firstn_skipn (i + 1 - w) (firstn (i + 1) s)) in H.
  apply Forall_app in H. tauto.
Qed.

(** Before a full window is available the mean is NaN. *)
Lemma window_mean_short (w : nat) (l : Pd.Series) :
  (List.length l < w)%nat -> Pd.window_mean w l = Np.NaN.
Proof.
  intros H. unfold Pd.window_mean.
  assert (Hf := filter_length_le (fun x => negb (Np.is_nan x)) l).
  destruct (Nat.ltb_spec
              (List.length (filter (fun x => negb (Np.is_nan x)) l)) w);
    [reflexivity | lia].
Qed.

Lemma filter_nonneg_fin (l : Pd.Series) :
  Forall nonneg_fin l -> filter (fun x => negb (Np.is_nan x)) l = l.
Proof.
  induction 1 as [|x l Hx _ IH]; [reflexivity|].
  cbn [filter]. destruct x; cbn in *; try contradiction. now rewrite IH.
Qed.

Lemma sum_nonneg_fin (l : Pd.Series) :
  Forall nonneg_fin l -> exists q, Np.sum l = Np.Fin q /\ 0 <= q.
Proof.
  induction 1 as [|x l Hx _ [q [Hq Hpos]]].
  - exists 0. split; [reflexivity | lra].
  - destruct x as [| | |a]; cbn in Hx; try contradiction.
    exists (a + q). cbn [Np.sum fold_right]. fold (Np.sum l). rewrite Hq.
    split; [reflexivity | lra].
Qed.

Lemma inject_nat_pos (n : nat) : (1 <= n)%nat -> 0 < inject_Z (Z.of_nat n).
Proof.
  intros H. change 0 with (inject_Z 0). rewrite <- Zlt_Qlt. lia.
Qed.

(** The mean of a full window of non-negative finite terms is a
    non-negative finite value. *)
Lemma window_mean_nonneg (w : nat) (l : Pd.Series) :
  (1 <= w)%nat -> List.length l = w -> Forall nonneg_fin l ->
  exists q, Pd.window_mean w l = Np.Fin q /\ 0 <= q.
Proof.
  intros Hw Hlen Hl. unfold Pd.window_mean.
  rewrite (filter_nonneg_fin l Hl), Hlen.
  rewrite Nat.ltb_irrefl. cbn [orb].
  destruct (Nat.eqb_spec w 0) as [E|_]; [lia|].
  destruct (sum_nonneg_fin l Hl) as [q [-> Hq]].
  assert (Hpos := inject_nat_pos w Hw).
  unfold Np.of_nat, Np.div.
  destruct (Qeq_bool (inject_Z (Z.of_nat w)) 0) eqn:E.
  - apply Qeq_bool_iff in E. lra.
  - eexists. split; [reflexivity|].
    apply Qle_shift_div_l; [exact Hpos | lra].
Qed.

(** The RSI entry computed from a finite average gain [g] and average loss
    [l]: a value in [0,100] when l > 0, the value 100 through an infinite
    ratio when l = 0 < g, and NaN (0/0) when both are zero. *)
Lemma rsi_of_ratio (g l : Q) :
  0 <= g -> 0 <= l ->
  let r := rsi_of_rs (Np.div (Np.Fin g) (Np.Fin l)) in
  (0 < l -> exists v, r = Np.Fin v /\ v == 100 - 100 / (1 + g / l)
                      /\ 0 <= v /\ v <= 100) /\
  (l == 0 -> 0 < g -> exists v, r = Np.Fin v /\ v == 100) /\
  (l == 0 -> g == 0 -> r = Np.NaN).
Proof.
  intros Hg Hl r. unfold r, rsi_of_rs. cbn [Np.div].
  split; [|split].
  - intros Hpos.
    destruct (Qeq_bool l 0) eqn:E; [apply Qeq_bool_iff in E; lra|].
    assert (Hq : 0 <= g / l) by (apply Qle_shift_div_l; lra).
    cbn [Np.add Np.div].
    destruct (Qeq_bool (1 + g / l) 0) eqn:E1;
      [apply Qeq_bool_iff in E1; lra|].
    cbn [Np.sub Np.neg Np.add].
    eexists. split; [reflexivity|]. split; [unfold Qminus; reflexivity|].
    assert (H0 : 0 <= 100 / (1 + g / l)) by (apply Qle_shift_div_l; lra).
    assert (H1 : 100 / (1 + g / l) <= 100) by (apply Qle_shift_div_r; lra).
    lra.
  - intros Hz Hpos.
    rewrite (Qeq_eq_bool _ _ Hz).
    destruct (Qeq_bool g 0) eqn:E; [apply Qeq_bool_iff in E; lra|].
    apply Py_ltb_true in Hpos. rewrite Hpos.
    cbn. eexists. split; [reflexivity|]. reflexivity.
  - intros Hz Hgz.
    rewrite (Qeq_eq_bool _ _ Hz), (Qeq_eq_bool _ _ Hgz). reflexivity.
Qed.

Lemma rsi_gain_length (prices : list Q) (period : nat) :
  List.length (rsi_gain (prices_table prices) period) = List.length prices.
Proof.
  unfold rsi_gain, rsi_delta, Pd.gt. cbn [Close prices_table].
  now rewrite rolling_mean_length, where_length, diff_length, length_map.
Qed.

Lemma rsi_loss_length (prices : list Q) (period : nat) :
  List.length (rsi_loss (prices_table prices) period) = List.length prices.
Proof.
  unfold rsi_loss, rsi_delta, Pd.lt, Pd.neg. cbn [Close prices_table].
  now rewrite rolling_mean_length, length_map, where_length, diff_length,
    length_map.
Qed.

Lemma calculate_rsi_manual_length (prices : list Q) (period : nat) :
  List.length (calculate_rsi_manual (prices_table prices) period)
  = List.length prices.
Proof.
  unfold calculate_rsi_manual, Pd.div.
  rewrite !length_map, length_combine, rsi_gain_length, rsi_loss_length.
  lia.
Qed.

Lemma calculate_rsi_manual_nth (prices : list Q) (period i : nat) :
  (i < List.length prices)%nat ->
  let data := prices_table prices in
  nth i (calculate_rsi_manual data period) Np.NaN
  = rsi_of_rs (Np.div (nth i (rsi_gain data period) Np.NaN)
                      (nth i (rsi_loss data period) Np.NaN)).
Proof.
  intros Hi data. unfold calculate_rsi_manual, Pd.div.
  rewrite map_map.
  set (f := fun p : Np.float64 * Np.float64 =>
              rsi_of_rs (Np.div (fst p) (snd p))).
  rewrite (nth_indep _ Np.NaN (f (Np.NaN, Np.NaN))).
  - rewrite (map_nth f). rewrite combine_nth.
    + reflexivity.
    + unfold data. now rewrite rsi_gain_length, rsi_loss_length.
  - unfold data.
    rewrite length_map, length_combine, rsi_gain_length, rsi_loss_length.
    lia.
Qed.

(** Every entry of the RSI of a finite price series: NaN during the
    warm-up, and afterwards the value computed from a finite non-negative
    average gain and loss. *)
Lemma rsi_entry (prices : list Q) (period i : nat) :
  (1 <= period)%nat -> (i < List.length prices)%nat ->
  let data := prices_table prices in
  ((i + 1 < period)%nat ->
   nth i (calculate_rsi_manual data period) Np.NaN = Np.NaN) /\
  ((period <= i + 1)%nat ->
   exists g l,
     nth i (rsi_gain data period) Np.NaN = Np.Fin g /\
     nth i (rsi_loss data period) Np.NaN = Np.Fin l /\
     0 <= g /\ 0 <= l /\
     nth i (calculate_rsi_manual data period) Np.NaN
     = rsi_of_rs (Np.div (Np.Fin g) (Np.Fin l))).
Proof.
  intros Hp Hi. cbv zeta. set (data := prices_table prices).
  assert (Hd := diff_fin_or_nan prices).
  assert (Hdl : List.length (Pd.diff (map Np.Fin prices)) = List.length prices)
    by now rewrite diff_length, length_map.
  pose proof (gain_terms_nonneg _ Hd) as Hgain.
  pose proof (loss_terms_nonneg _ Hd) as Hloss.
  set (gs := Pd.where_ (Pd.diff (map Np.Fin prices))
               (Pd.gt (Pd.diff (map Np.Fin prices)) (Np.Fin 0)) (Np.Fin 0))
    in *.
  set (ls := Pd.neg (Pd.where_ (Pd.diff (map Np.Fin prices))
               (Pd.lt (Pd.diff (map Np.Fin prices)) (Np.Fin 0)) (Np.Fin 0)))
    in *.
  assert (Hgl : List.length gs = List.length prices)
    by (unfold gs, Pd.gt; now rewrite where_length).
  assert (Hll : List.length ls = List.length prices)
    by (unfold ls, Pd.lt, Pd.neg; now rewrite length_map, where_length).
  assert (Eg : nth i (rsi_gain data period) Np.NaN
               = Pd.window_mean period (Pd.trailing period i gs))
    by (apply rolling_mean_nth; lia).
  assert (El : nth i (rsi_loss data period) Np.NaN
               = Pd.window_mean period (Pd.trailing period i ls))
    by (apply rolling_mean_nth; lia).
  unfold data at 1 4.
  rewrite (calculate_rsi_manual_nth prices period i Hi).
  fold data. rewrite Eg, El. split.
  - intros Hshort.
    rewrite (window_mean_short period (Pd.trailing period i gs))
      by (rewrite trailing_length; lia).
    reflexivity.
  - intros Hfull.
    destruct (window_mean_nonneg period (Pd.trailing period i gs) Hp)
      as [g [Hg Hg0]];
      [rewrite trailing_length; lia | now apply trailing_Forall |].
    destruct (window_mean_nonneg period (Pd.trailing period i ls) Hp)
      as [l [Hl Hl0]];
      [rewrite trailing_length; lia | now apply trailing_Forall |].
    exists g, l. rewrite Hg, Hl. repeat split; assumption.
Qed.

Lemma nth_error_of_nth (l : Pd.Series) (i : nat) (x : Np.float64) :
  (i < List.length l)%nat -> nth i l Np.NaN = x -> nth_error l i = Some x.
Proof. intros Hi <-. now apply nth_error_nth'. Qed.

(** C4 as stated fails on a constant series: with prices [5, 5, 5] and
    period 2 only the first entry belongs to the warm-up, yet the entries at
    indexes 1 and 2 are NaN as well (average gain and loss are both 0, and
    0/0 is NaN).  With period 1 there is no warm-up, and the first entry is
    NaN all the same. *)
Lemma calculate_rsi_manual_constant_series :
  calculate_rsi_manual (prices_table [5; 5; 5]) 2
  = [Np.NaN; Np.NaN; Np.NaN] /\
  nth_error (calculate_rsi_manual (prices_table [1; 2; 3]) 1) 0
  = Some Np.NaN.
Proof. split; vm_compute; reflexivity. Qed.

(** C4 (amended): for every finite price series and every period >= 1 the
    output has one entry per input entry; the first period-1 entries are
    NaN; every later entry has a finite average gain and average loss, and
    it is a defined RSI value, between 0 and 100, unless both averages are
    zero, in which case it is NaN too. *)
Theorem calculate_rsi_manual_shape (prices : list Q) (period : nat) :
  (1 <= period)%nat ->
  let data := prices_table prices in
  let rsi := calculate_rsi_manual data period in
  List.length rsi = List.length prices /\
  forall i, (i < List.length prices)%nat ->
    ((i < period - 1)%nat -> nth_error rsi i = Some Np.NaN) /\
    ((period - 1 <= i)%nat ->
     exists g l,
       nth_error (rsi_gain data period) i = Some (Np.Fin g) /\
       nth_error (rsi_loss data period) i = Some (Np.Fin l) /\
       (g == 0 /\ l == 0 -> nth_error rsi i = Some Np.NaN) /\
       (~ (g == 0 /\ l == 0) ->
        exists v, nth_error rsi i = Some (Np.Fin v) /\ 0 <= v /\ v <= 100)).
Proof.
  intros Hp. cbv zeta.
  split; [apply calculate_rsi_manual_length|].
  intros i Hi.
  assert (Hlen := calculate_rsi_manual_length prices period).
  destruct (rsi_entry prices period i Hp Hi) as [Hwarm Hlater].
  split.
  - intros Hlt. apply nth_error_of_nth; [lia|]. apply Hwarm. lia.
  - intros Hge.
    destruct Hlater as [g [l [Hg [Hl [Hg0 [Hl0 Hout]]]]]]; [lia|].
    destruct (rsi_of_ratio g l Hg0 Hl0) as [Hpos [Hsat Hnan]].
    exists g, l.
    split; [apply nth_error_of_nth; [rewrite rsi_gain_length; lia | exact Hg]|].
    split; [apply nth_error_of_nth; [rewrite rsi_loss_length; lia | exact Hl]|].
    split.
    + intros [Hgz Hlz]. apply nth_error_of_nth; [lia|].
      rewrite Hout. now apply Hnan.
    + intros Hnz.
      destruct (Qlt_le_dec 0 l) as [Hl1 | Hl1].
      * destruct (Hpos Hl1) as [v [Hv [_ [Hv0 Hv1]]]].
        exists v. split; [|split; assumption].
        apply nth_error_of_nth; [lia|]. now rewrite Hout.
      * assert (Hlz : l == 0) by lra.
        assert (Hgpos : 0 < g).
        { destruct (Qlt_le_dec 0 g) as [H | H]; [exact H|].
          exfalso. apply Hnz. split; lra. }
        destruct (Hsat Hlz Hgpos) as [v [Hv Hv100]].
        exists v. split; [|split; lra].
        apply nth_error_of_nth; [lia|]. now rewrite Hout.
Qed.

Lemma calculate_rsi_manual_shape_witness :
  (1 <= 2)%nat /\
  List.length (calculate_rsi_manual (prices_table [1; 2; 1; 3; 0]) 2)
  = 5%nat /\
  nth_error (calculate_rsi_manual (prices_table [1; 2; 1; 3; 0]) 2) 0
  = Some Np.NaN.
Proof.
  assert (H : (1 <= 2)%nat) by lia.
  split; [exact H|].
  destruct (calculate_rsi_manual_shape [1; 2; 1; 3; 0] 2 H) as [Hlen Hall].
  split; [exact Hlen|].
  apply (Hall 0%nat); simpl; lia.
Defined.

(** C5 as stated fails on a constant series: with prices [3, 3, 3, 3] and
    period 2 the average loss at index 1, past the warm-up, is exactly
    zero, and the RSI there is NaN, not 100. *)
Lemma calculate_rsi_manual_flat_not_100 :
  (exists l, nth_error (rsi_loss (prices_table [3; 3; 3; 3]) 2) 1
             = Some (Np.Fin l) /\ l == 0) /\
  nth_error (calculate_rsi_manual (prices_table [3; 3; 3; 3]) 2) 1
  = Some Np.NaN /\
  (forall v, nth_error (calculate_rsi_manual (prices_table [3; 3; 3; 3]) 2) 1
             <> Some (Np.Fin v)).
Proof.
  split; [eexists; split; [vm_compute; reflexivity | reflexivity]|].
  split; [vm_compute; reflexivity|].
  intros v. vm_compute. discriminate.
Qed.

(** C5 (amended): at every index past the warm-up where the average loss
    is exactly zero, the average gain is a finite non-negative value; if
    it is positive the ratio is infinite and the RSI is the defined value
    100; if it is zero too (as on a constant series) the RSI is NaN.
    Nothing raises in either case. *)
Theorem calculate_rsi_manual_zero_loss (prices : list Q) (period i : nat)
  (l : Q) :
  (1 <= period)%nat ->
  (period - 1 <= i)%nat -> (i < List.length prices)%nat ->
  let data := prices_table prices in
  nth_error (rsi_loss data period) i = Some (Np.Fin l) ->
  l == 0 ->
  exists g,
    nth_error (rsi_gain data period) i = Some (Np.Fin g) /\ 0 <= g /\
    (0 < g ->
     exists v, nth_error (calculate_rsi_manual data period) i
               = Some (Np.Fin v) /\ v == 100) /\
    (g == 0 ->
     nth_error (calculate_rsi_manual data period) i = Some Np.NaN).
Proof.
  intros Hp Hge Hi. cbv zeta. intros Hloss Hlz.
  assert (Hlen := calculate_rsi_manual_length prices period).
  destruct (rsi_entry prices period i Hp Hi) as [_ Hlater].
  destruct Hlater as [g [l' [Hg [Hl [Hg0 [Hl0 Hout]]]]]]; [lia|].
  assert (Hll' : l' = l).
  { rewrite (nth_error_nth' _ Np.NaN) in Hloss
      by (rewrite rsi_loss_length; exact Hi).
    rewrite Hl in Hloss. congruence. }
  subst l'.
  destruct (rsi_of_ratio g l Hg0 Hl0) as [_ [Hsat Hnan]].
  exists g.
  split; [apply nth_error_of_nth; [rewrite rsi_gain_length; lia | exact Hg]|].
  split; [exact Hg0|]. split.
  - intros Hgpos. destruct (Hsat Hlz Hgpos) as [v [Hv Hv100]].
    exists v. split; [|exact Hv100].
    apply nth_error_of_nth; [lia|]. now rewrite Hout.
  - intros Hgz. apply nth_error_of_nth; [lia|].
    rewrite Hout. now apply Hnan.
Qed.

(** A rising series: the average loss is zero and the RSI is 100. *)
Lemma calculate_rsi_manual_zero_loss_witness :
  (1 <= 2)%nat /\ (2 - 1 <= 1)%nat /\ (1 < List.length [1; 2; 3])%nat /\
  nth_error (rsi_loss (prices_table [1; 2; 3]) 2) 1 = Some (Np.Fin (0 # 2)) /\
  (0 # 2) == 0 /\
  exists v, nth_error (calculate_rsi_manual (prices_table [1; 2; 3]) 2) 1
            = Some (Np.Fin v) /\ v == 100.
Proof.
  assert (H1 : (1 <= 2)%nat) by lia.
  assert (H2 : (2 - 1 <= 1)%nat) by (simpl; lia).
  assert (H3 : (1 < List.length [1; 2; 3])%nat) by (simpl; lia).
  assert (H4 : nth_error (rsi_loss (prices_table [1; 2; 3]) 2) 1
               = Some (Np.Fin (0 # 2))) by (vm_compute; reflexivity).
  assert (H5 : (0 # 2) == 0) by reflexivity.
  split; [exact H1|]. split; [exact H2|]. split; [exact H3|].
  split; [exact H4|]. split; [exact H5|].
  destruct (calculate_rsi_manual_zero_loss [1; 2; 3] 2 1 (0 # 2)
              H1 H2 H3 H4 H5) as [g [Hg [_ [Hpos _]]]].
  apply Hpos.
  assert (Hg' : nth_error (rsi_gain (prices_table [1; 2; 3]) 2) 1
                = Some (Np.Fin (1 # 2))) by (vm_compute; reflexivity).
  rewrite Hg' in Hg. injection Hg as <-. reflexivity.
Defined.

(** ** Least squares *)

Lemma qsum_nonneg (l : list Q) : Forall (fun x => 0 <= x) l -> 0 <= qsum l.
Proof.
  induction 1 as [|x l Hx _ IH]; [discriminate|]. rewrite qsum_cons. lra.
Qed.

Lemma sq_nonneg (x : Q) : 0 <= sq x.
Proof. unfold sq. nra. Qed.

Lemma sq_zero (x : Q) : sq x <= 0 -> x == 0.
Proof. unfold sq. intros H. nra. Qed.

Lemma qsum_sq_nonneg {A : Type} (f : A -> Q) (l : list A) :
  0 <= qsum (map (fun x => sq (f x)) l).
Proof.
  apply qsum_nonneg, Forall_map, Forall_forall. intros x _. apply sq_nonneg.
Qed.

(** A sum of squares that is not positive has only zero terms. *)
Lemma qsum_sq_zero {A : Type} (f : A -> Q) (l : list A) :
  qsum (map (fun x => sq (f x)) l) <= 0 ->
  forall x, In x l -> f x == 0.
Proof.
  induction l as [|y l IH]; intros H x Hin; [contradiction|].
  cbn [map] in H. rewrite qsum_cons in H.
  assert (H1 := sq_nonneg (f y)).
  assert (H2 := qsum_sq_nonneg f l).
  destruct Hin as [<- | Hin].
  - apply sq_zero. lra.
  - apply IH; [lra | exact Hin].
Qed.

Lemma idx_succ (n : nat) : idx (S n) == 1 + idx n.
Proof.
  unfold idx. rewrite Nat2Z.inj_succ, <- Z.add_1_l, inject_Z_plus.
  reflexivity.
Qed.

Lemma qsum_center (m : Q) (l : list Q) :
  qsum (Sk.center m l) == qsum l - idx (List.length l) * m.
Proof.
  induction l as [|x l IH].
  - change (0 == 0 - (0 # 1) * m). ring.
  - cbn [Sk.center map List.length]. rewrite !qsum_cons.
    fold (Sk.center m l). rewrite IH, idx_succ. ring.
Qed.

(** The centred values sum to zero. *)
Lemma qsum_center_mean (l : list Q) :
  (1 <= List.length l)%nat -> qsum (Sk.center (Sk.mean l) l) == 0.
Proof.
  intros H. rewrite qsum_center. unfold Sk.mean. fold (idx (List.length l)).
  assert (Hn : 0 < idx (List.length l)) by now apply inject_nat_pos.
  field. lra.
Qed.

Lemma dot_cons (x y : Q) (xs ys : list Q) :
  Sk.dot (x :: xs) (y :: ys) = x * y + Sk.dot xs ys.
Proof. reflexivity. Qed.

Lemma dot_self_nonneg (zs : list Q) : 0 <= Sk.dot zs zs.
Proof.
  induction zs as [|z zs IH]; [discriminate|]. rewrite dot_cons. nra.
Qed.

(** When the centred X are all zero, so is their product with anything. *)
Lemma dot_self_zero (zs ws : list Q) :
  Sk.dot zs zs == 0 -> Sk.dot zs ws == 0.
Proof.
  revert ws. induction zs as [|z zs IH]; intros ws H; [reflexivity|].
  destruct ws as [|w ws]; [reflexivity|].
  rewrite dot_cons in *.
  assert (H1 := dot_self_nonneg zs).
  assert (Hz : z == 0) by nra.
  rewrite IH by nra. rewrite Hz. ring.
Qed.

Section LeastSquares.

Variables mx my a a' b' : Q.

(** The squared residuals of any line (a', b') against those of the line
    (a, my - mx * a) through the point of the means. *)
Lemma squared_residuals_split (xs ys : list Q) :
  List.length xs = List.length ys ->
  squared_residuals a' b' (combine xs ys)
  == squared_residuals a (my - mx * a) (combine xs ys)
     + qsum (map (fun x => sq ((a - a') * (x - mx)
                               + ((a - a') * mx + (my - mx * a) - b'))) xs)
     + 2 * (a - a')
       * (Sk.dot (Sk.center mx xs) (Sk.center my ys)
          - a * Sk.dot (Sk.center mx xs) (Sk.center mx xs))
     + 2 * ((a - a') * mx + (my - mx * a) - b')
       * (qsum (Sk.center my ys) - a * qsum (Sk.center mx xs)).
Proof.
  revert ys. induction xs as [|x xs IH]; intros [|y ys] Hlen;
    try discriminate.
  - unfold squared_residuals, Sk.dot. cbn [combine map Sk.center qsum fold_right].
    ring.
  - injection Hlen as Hlen.
    unfold squared_residuals in *.
    cbn [combine map Sk.center fst snd].
    fold (Sk.center mx xs). fold (Sk.center my ys).
    rewrite !qsum_cons, !dot_cons, (IH ys Hlen).
    unfold sq. ring.
Qed.

End LeastSquares.

(** The fitted coefficient solves the normal equation. *)
Lemma fit_normal_equation (Xc yc : list Q) :
  let sxx := Sk.dot Xc Xc in
  let coef := if Qeq_bool sxx 0 then 0 else Sk.dot Xc yc / sxx in
  Sk.dot Xc yc - coef * Sk.dot Xc Xc == 0.
Proof.
  cbv zeta. destruct (Qeq_bool (Sk.dot Xc Xc) 0) eqn:E.
  - apply Qeq_bool_iff in E. rewrite (dot_self_zero Xc yc E). ring.
  - apply Qeq_bool_neq in E. field. exact E.
Qed.

Lemma as_finite_map_Fin (prices : list Q) :
  Sk.as_finite (map Np.Fin prices) = Some prices.
Proof.
  induction prices as [|p l IH]; [reflexivity|].
  cbn [map Sk.as_finite]. now rewrite IH.
Qed.

Lemma index_column_length (start : nat) (count : Z) :
  List.length (index_column start count) = Z.to_nat count.
Proof. unfold index_column. now rewrite length_map, length_seq. Qed.

Lemma fit_prices (prices : list Q) :
  (1 <= List.length prices)%nat ->
  Sk.fit (index_column 0 (Z.of_nat (List.length prices)))
         (map Np.Fin prices)
  = Return (fitted_line prices).
Proof.
  intros H. unfold Sk.fit.
  rewrite index_column_length, Nat2Z.id, as_finite_map_Fin.
  destruct (Nat.eqb_spec (List.length prices) 0) as [E|_]; [lia|].
  rewrite Nat.eqb_refl. reflexivity.
Qed.

Lemma predict_future_prices_fitted (prices : list Q) (days : Z) :
  (1 <= List.length prices)%nat -> (0 < days)%Z ->
  predict_future_prices (prices_table prices) days
  = Return (map (fun x => x * Sk.coef_ (fitted_line prices)
                          + Sk.intercept_ (fitted_line prices))
                (index_column (List.length prices) days)).
Proof.
  intros H Hd. unfold predict_future_prices.
  cbn [Close prices_table]. rewrite length_map.
  rewrite (fit_prices prices H). cbn [bind].
  unfold Sk.predict. rewrite index_column_length.
  destruct (Nat.eqb_spec (Z.to_nat days) 0) as [E|_]; [lia|].
  reflexivity.
Qed.

(** The fitted line minimizes the sum of the squared residuals; any line
    (a, b) exceeds it by the sum of the squares of its distance to it. *)
Lemma fitted_line_residuals (prices : list Q) (a b : Q) :
  (1 <= List.length prices)%nat ->
  let X := index_column 0 (Z.of_nat (List.length prices)) in
  let m := fitted_line prices in
  squared_residuals a b (index_price_pairs prices)
  == squared_residuals (Sk.coef_ m) (Sk.intercept_ m)
       (index_price_pairs prices)
     + qsum (map (fun x => sq ((Sk.coef_ m - a) * (x - Sk.mean X)
                               + ((Sk.coef_ m - a) * Sk.mean X
                                  + Sk.intercept_ m - b))) X).
Proof.
  intros H. cbv zeta.
  set (X := index_column 0 (Z.of_nat (List.length prices))).
  assert (HX : List.length X = List.length prices)
    by (unfold X; now rewrite index_column_length, Nat2Z.id).
  assert (Epairs : index_price_pairs prices = combine X prices).
  { unfold index_price_pairs, X, index_column. now rewrite Nat2Z.id. }
  rewrite Epairs.
  rewrite (squared_residuals_split (Sk.mean X) (Sk.mean prices)
             (Sk.coef_ (fitted_line prices)) a b X prices HX).
  assert (N1 := fit_normal_equation (Sk.center (Sk.mean X) X)
                  (Sk.center (Sk.mean prices) prices)).
  cbv zeta in N1.
  assert (N2 : qsum (Sk.center (Sk.mean prices) prices) == 0)
    by now apply qsum_center_mean.
  assert (N3 : qsum (Sk.center (Sk.mean X) X) == 0)
    by (apply qsum_center_mean; lia).
  unfold fitted_line. fold X. cbn [Sk.coef_ Sk.intercept_].
  rewrite N1, N2, N3. ring.
Qed.

Lemma index_column_nth_error (start : nat) (count : Z) (k : nat) :
  (k < Z.to_nat count)%nat ->
  nth_error (index_column start count) k = Some (idx (start + k)).
Proof.
  intros Hk. unfold index_column.
  rewrite (nth_error_nth' _ (idx 0)) by now rewrite length_map, length_seq.
  rewrite (map_nth idx), seq_nth by exact Hk. reflexivity.
Qed.

Lemma index_column_In (n k : nat) :
  (k < n)%nat -> In (idx k) (index_column 0 (Z.of_nat n)).
Proof.
  intros Hk. unfold index_column. apply in_map, in_seq.
  rewrite Nat2Z.id. lia.
Qed.

(** C6: for every price series of length L >= 2 and every positive number
    of days, [predict_future_prices] returns a sequence of length days whose
    entry k is the value at index L + k of the ordinary-least-squares line
    of the pairs (i, price[i]), i = 0..L-1: the line (slope, intercept)
    whose sum of squared residuals is the least among all lines, and the
    only such line.  In particular prices [1,2,3,4,5] with days = 2 give
    [6, 7]. *)
Theorem predict_future_prices_ols :
  (forall (prices : list Q) (days : Z),
     (2 <= List.length prices)%nat -> (0 < days)%Z ->
     exists slope intercept forecast,
       predict_future_prices (prices_table prices) days = Return forecast /\
       List.length forecast = Z.to_nat days /\
       (forall a b,
          squared_residuals slope intercept (index_price_pairs prices)
          <= squared_residuals a b (index_price_pairs prices)) /\
       (forall a b,
          squared_residuals a b (index_price_pairs prices)
          <= squared_residuals slope intercept (index_price_pairs prices) ->
          a == slope /\ b == intercept) /\
       (forall k, (k < Z.to_nat days)%nat ->
          exists v, nth_error forecast k = Some v /\
                    v == slope * idx (List.length prices + k) + intercept))
  /\
  (exists v1 v2,
     predict_future_prices (prices_table [1; 2; 3; 4; 5]) 2
     = Return [v1; v2] /\ v1 == 6 /\ v2 == 7).
Proof.
  split.
  - intros prices days HL Hd.
    assert (H1 : (1 <= List.length prices)%nat) by lia.
    set (m := fitted_line prices).
    exists (Sk.coef_ m), (Sk.intercept_ m).
    eexists. split; [apply (predict_future_prices_fitted prices days H1 Hd)|].
    fold m. split; [now rewrite length_map, index_column_length|].
    split; [|split].
    + intros a b.
      rewrite (fitted_line_residuals prices a b H1). cbv zeta. fold m.
      match goal with
      | |- _ <= _ + qsum (map (fun x => sq (@?f x)) ?l) =>
          assert (Hs := qsum_sq_nonneg f l)
      end.
      cbv beta in Hs. lra.
    + intros a b Hle.
      rewrite (fitted_line_residuals prices a b H1) in Hle.
      cbv zeta in Hle. fold m in Hle.
      match type of Hle with
      | _ + qsum (map (fun x => sq (@?f x)) ?l) <= _ =>
          assert (Hz : forall x, In x l -> f x == 0)
            by (apply (qsum_sq_zero f l); cbv beta; lra)
      end.
      assert (E0 := Hz (idx 0) (index_column_In (List.length prices) 0 ltac:(lia))).
      assert (E1 := Hz (idx 1) (index_column_In (List.length prices) 1 ltac:(lia))).
      cbv beta in E0, E1.
      change (idx 0) with 0 in E0. change (idx 1) with 1 in E1.
      split; lra.
    + intros k Hk.
      rewrite nth_error_map, (index_column_nth_error _ _ _ Hk).
      cbn [option_map]. eexists. split; [reflexivity|]. ring.
  - eexists. eexists. split; [vm_compute; reflexivity|].
    split; vm_compute; reflexivity.
Qed.

Lemma predict_future_prices_ols_witness :
  (2 <= List.length [1; 3; 2])%nat /\ (0 < 2)%Z /\
  exists forecast,
    predict_future_prices (prices_table [1; 3; 2]) 2 = Return forecast /\
    List.length forecast = 2%nat.
Proof.
  assert (H1 : (2 <= List.length [1; 3; 2])%nat) by (simpl; lia).
  assert (H2 : (0 < 2)%Z) by lia.
  split; [exact H1|]. split; [exact H2|].
  destruct (proj1 predict_future_prices_ols [1; 3; 2] 2%Z H1 H2)
    as [slope [intercept [forecast [Hf [Hlen _]]]]].
  exists forecast. split; [exact Hf | exact Hlen].
Defined.

(** C7 as stated fails for a series of one observation: with prices [7]
    and days = 3 the estimator fits the flat line through the point and the
    call returns [7, 7, 7]; nothing is raised. *)
Lemma predict_future_prices_single_observation :
  (List.length [7] < 2)%nat /\
  predict_future_prices (prices_table [7]) 3 = Return [7; 7; 7].
Proof. split; [simpl; lia | vm_compute; reflexivity]. Qed.

(** C7 (amended): for the empty price series and any days the forecaster
    fails, raising ValueError; for a series of exactly one observation and
    days >= 1 it does not fail: it returns the flat forecast that repeats
    the observation days times. *)
Theorem predict_future_prices_degenerate :
  (forall days : Z,
     predict_future_prices (prices_table []) days = Raise ValueError) /\
  (forall (price : Q) (days : Z),
     (0 < days)%Z ->
     exists forecast,
       predict_future_prices (prices_table [price]) days = Return forecast /\
       List.length forecast = Z.to_nat days /\
       Forall (fun v => v == price) forecast).
Proof.
  split.
  - intros days. reflexivity.
  - intros price days Hd.
    assert (H1 : (1 <= List.length [price])%nat) by (simpl; lia).
    eexists. split; [apply (predict_future_prices_fitted [price] days H1 Hd)|].
    split; [now rewrite length_map, index_column_length|].
    apply Forall_map, Forall_forall. intros x _.
    unfold fitted_line. cbn [Sk.coef_ Sk.intercept_].
    assert (E : Qeq_bool
                  (Sk.dot
                     (Sk.center
                        (Sk.mean (index_column 0 (Z.of_nat (List.length [price]))))
                        (index_column 0 (Z.of_nat (List.length [price]))))
                     (Sk.center
                        (Sk.mean (index_column 0 (Z.of_nat (List.length [price]))))
                        (index_column 0 (Z.of_nat (List.length [price])))))
                  0 = true) by (vm_compute; reflexivity).
    rewrite E.
    assert (Em : Sk.mean [price] == price).
    { unfold Sk.mean. cbn [List.length qsum fold_right].
      change (inject_Z (Z.of_nat 1)) with 1. field. }
    rewrite Em. ring.
Qed.

Lemma predict_future_prices_degenerate_witness :
  (0 < 3)%Z /\
  predict_future_prices (prices_table []) 3 = Raise ValueError /\
  exists forecast,
    predict_future_prices (prices_table [42]) 3 = Return forecast /\
    List.length forecast = 3%nat /\
    Forall (fun v => v == 42) forecast.
Proof.
  assert (H : (0 < 3)%Z) by lia.
  split; [exact H|].
  split; [apply (proj1 predict_future_prices_degenerate 3%Z)|].
  exact (proj2 predict_future_prices_degenerate 42 3%Z H).
Defined.

(** ** Recommendation *)

Lemma Py_last_item_last {A : Type} (l : list A) (d : A) :
  l <> [] -> Py.last_item l = Return (last l d).
Proof.
  intros Hl. destruct (exists_last Hl) as [l' [x ->]].
  unfold Py.last_item. rewrite rev_app_distr, last_last. reflexivity.
Qed.

Lemma Py_gtb_compat (a b c : Q) : a == b -> Py.gtb a c = Py.gtb b c.
Proof. intros H. unfold Py.gtb, Py.ltb. now rewrite H. Qed.

Lemma Py_leb_compat (a b c : Q) : a == b -> Py.leb a c = Py.leb b c.
Proof. intros H. unfold Py.leb. now rewrite H. Qed.

(** C8 as stated fails at current_price = 0 (a non-negative price): the
    growth (forecast[last] - current_price) / current_price divides by
    zero and the call raises instead of returning a row of the table. *)
Lemma generate_recommendation_zero_price :
  [0] <> [] /\
  generate_recommendation (Some 1) (Some 0) (Some [0])
  = Raise ZeroDivisionError /\
  (forall p, generate_recommendation (Some 1) (Some 0) (Some [0])
             <> Return p).
Proof.
  split; [discriminate|]. split; [reflexivity|].
  intros p. vm_compute. discriminate.
Qed.

(** C8 (amended): for every fair_price, non-zero current_price and
    non-empty forecast, with margin = fair_price - current_price and
    future_growth = (forecast[last] - current_price) / current_price * 100,
    [generate_recommendation] returns the pair of the four-row decision
    table: (margin > 0, growth > 0) strong; (margin > 0, growth <= 0)
    moderate; (margin <= 0, growth > 0) moderate; (margin <= 0,
    growth <= 0) weak.  It is total there: it always returns one of the
    four pairs. *)
Theorem generate_recommendation_table (fair_price current_price : Q)
  (forecast : list Q) :
  forecast <> [] ->
  ~ current_price == 0 ->
  let margin := fair_price - current_price in
  let future_growth :=
    (last forecast 0 - current_price) / current_price * 100 in
  let r := generate_recommendation (Some fair_price) (Some current_price)
             (Some forecast) in
  (0 < margin /\ 0 < future_growth -> r = Return Forte_Oportunidade) /\
  (0 < margin /\ future_growth <= 0 ->
   r = Return Oportunidade_Moderada_subvalorizado) /\
  (margin <= 0 /\ 0 < future_growth ->
   r = Return Oportunidade_Moderada_cautela) /\
  (margin <= 0 /\ future_growth <= 0 -> r = Return Fraca_Oportunidade) /\
  (exists p, r = Return p /\
     In p [Forte_Oportunidade; Oportunidade_Moderada_subvalorizado;
           Oportunidade_Moderada_cautela; Fraca_Oportunidade]).
Proof.
  intros Hne Hcp margin future_growth r.
  assert (Hr : r =
    if Py.gtb margin 0 && Py.gtb future_growth 0 then
      Return Forte_Oportunidade
    else if Py.gtb margin 0 && Py.leb future_growth 0 then
      Return Oportunidade_Moderada_subvalorizado
    else if Py.leb margin 0 && Py.gtb future_growth 0 then
      Return Oportunidade_Moderada_cautela
    else Return Fraca_Oportunidade).
  { unfold r, generate_recommendation.
    rewrite (Py_last_item_last forecast 0 Hne). cbn [bind].
    rewrite (Py_div_nonzero _ _ Hcp). cbn [bind]. reflexivity. }
  rewrite Hr. clear Hr r.
  destruct (Py.gtb margin 0) eqn:Em; destruct (Py.gtb future_growth 0) eqn:Eg;
    destruct (Py.leb margin 0) eqn:Lm; destruct (Py.leb future_growth 0) eqn:Lg;
    try apply Py_gtb_true in Em; try apply Py_gtb_false in Em;
    try apply Py_gtb_true in Eg; try apply Py_gtb_false in Eg;
    try apply Py_leb_true in Lm; try apply Py_leb_false in Lm;
    try apply Py_leb_true in Lg; try apply Py_leb_false in Lg;
    cbn [andb];
    try (exfalso; lra);
    (repeat split;
     [ try (intros [? ?]; first [reflexivity | exfalso; lra]) ..
     | eexists; split; [reflexivity | simpl; tauto] ]).
Qed.

(** The two instances of the specification: margin = +5 with growth +2%
    is strong, margin = -3 with growth -1% is weak. *)
Lemma generate_recommendation_table_witness :
  [102] <> [] /\ ~ 100 == 0 /\
  generate_recommendation (Some 105) (Some 100) (Some [102])
  = Return Forte_Oportunidade /\
  generate_recommendation (Some 97) (Some 100) (Some [101; 99])
  = Return Fraca_Oportunidade.
Proof.
  assert (H1 : [102] <> []) by discriminate.
  assert (H2 : [101; 99] <> []) by discriminate.
  assert (H3 : ~ 100 == 0) by discriminate.
  split; [exact H1|]. split; [exact H3|]. split.
  - apply (generate_recommendation_table 105 100 [102] H1 H3).
    split; reflexivity.
  - apply (generate_recommendation_table 97 100 [101; 99] H2 H3).
    split; discriminate.
Defined.

(** C9 as stated fails on the literal: with fair_price absent the call
    returns the pair of the source, which is in Portuguese, and not the
    pair ("Insufficient data", "Cannot generate a recommendation.") that
    the claim names. *)
Lemma generate_recommendation_absent_literal :
  generate_recommendation None (Some 100) (Some [110])
  = Return ("Dados insuficientes"%string,
            "Não é possível gerar uma recomendação."%string) /\
  generate_recommendation None (Some 100) (Some [110])
  <> Return ("Insufficient data"%string,
             "Cannot generate a recommendation."%string).
Proof. split; [reflexivity | discriminate]. Qed.

(** C9 (amended): whenever fair_price, current_price or the forecast is
    absent, [generate_recommendation] returns the fixed literal pair
    ("Dados insuficientes", "Não é possível gerar uma recomendação."),
    whatever the other inputs are (an empty forecast or a zero price
    included: nothing is computed, so nothing can raise). *)
Theorem generate_recommendation_absent (fair_price current_price : option Q)
  (forecast : option (list Q)) :
  fair_price = None \/ current_price = None \/ forecast = None ->
  generate_recommendation fair_price current_price forecast
  = Return ("Dados insuficientes"%string,
            "Não é possível gerar uma recomendação."%string).
Proof.
  intros H.
  destruct fair_price, current_price, forecast; try reflexivity.
  destruct H as [H | [H | H]]; discriminate.
Qed.

Lemma generate_recommendation_absent_witness :
  generate_recommendation None (Some 0) (Some [])
  = Return ("Dados insuficientes"%string,
            "Não é possível gerar uma recomendação."%string) /\
  generate_recommendation (Some 3) None (Some [1; 2])
  = Return ("Dados insuficientes"%string,
            "Não é possível gerar uma recomendação."%string) /\
  generate_recommendation (Some 3) (Some 0) None
  = Return ("Dados insuficientes"%string,
            "Não é possível gerar uma recomendação."%string).
Proof.
  split; [|split].
  - apply (generate_recommendation_absent None (Some 0) (Some [])).
    left. reflexivity.
  - apply (generate_recommendation_absent (Some 3) None (Some [1; 2])).
    right. left. reflexivity.
  - apply (generate_recommendation_absent (Some 3) (Some 0) None).
    right. right. reflexivity.
Defined.

(** C10: [generate_recommendation] depends on the forecast only through
    its last element: for every fair_price and current_price (present or
    absent) and every two non-empty forecasts with equal last elements, the
    two calls have the same outcome -- the same pair, or for a zero
    current_price the same exception. *)
Theorem generate_recommendation_last_only (fair_price current_price : option Q)
  (forecast1 forecast2 : list Q) :
  forecast1 <> [] -> forecast2 <> [] ->
  last forecast1 0 == last forecast2 0 ->
  generate_recommendation fair_price current_price (Some forecast1)
  = generate_recommendation fair_price current_price (Some forecast2).
Proof.
  intros H1 H2 Hlast.
  destruct fair_price as [fp|], current_price as [cp|]; try reflexivity.
  unfold generate_recommendation.
  rewrite (Py_last_item_last forecast1 0 H1).
  rewrite (Py_last_item_last forecast2 0 H2). cbn [bind].
  destruct (Qeq_bool cp 0) eqn:E.
  - apply Qeq_bool_iff in E. now rewrite !Py_div_zero.
  - apply Qeq_bool_neq in E. rewrite !Py_div_nonzero by assumption.
    cbn [bind].
    assert (Hg : (last forecast1 0 - cp) / cp * 100
                 == (last forecast2 0 - cp) / cp * 100)
      by now rewrite Hlast.
    rewrite (Py_gtb_compat _ _ 0 Hg), (Py_leb_compat _ _ 0 Hg).
    reflexivity.
Qed.

Lemma generate_recommendation_last_only_witness :
  [90; 80; 110] <> [] /\ [110] <> [] /\
  last [90; 80; 110] 0 == last [110] 0 /\
  generate_recommendation (Some 120) (Some 100) (Some [90; 80; 110])
  = generate_recommendation (Some 120) (Some 100) (Some [110]).
Proof.
  assert (H1 : [90; 80; 110] <> []) by discriminate.
  assert (H2 : [110] <> []) by discriminate.
  assert (H3 : last [90; 80; 110] 0 == last [110] 0) by reflexivity.
  split; [exact H1|]. split; [exact H2|]. split; [exact H3|].
  exact (generate_recommendation_last_only (Some 120) (Some 100)
           [90; 80; 110] [110] H1 H2 H3).
Defined.

(** * Further properties of the code *)

(** ** Valuation *)

(** X1: a non-negative dividend never gets a negative fair value:
    [gordon_model] returns [None] or a value that is non-negative, and
    positive when the dividend is. *)
Theorem gordon_model_nonnegative (dividend growth_rate discount_rate : Q) :
  0 <= dividend ->
  gordon_model dividend growth_rate discount_rate = Return None \/
  exists v,
    gordon_model dividend growth_rate discount_rate = Return (Some v) /\
    0 <= v /\ (0 < dividend -> 0 < v).
Proof.
  intros Hd. unfold gordon_model.
  destruct (Py.leb discount_rate growth_rate) eqn:E; [now left|].
  right. apply Py_leb_false in E.
  rewrite Py_div_nonzero by lra. cbn [bind].
  eexists. split; [reflexivity|]. split.
  - apply Qle_shift_div_l; lra.
  - intros Hpos. apply Qlt_shift_div_l; lra.
Qed.

Lemma gordon_model_nonnegative_witness :
  0 <= 2 /\
  (gordon_model 2 (5 # 100) (10 # 100) = Return None \/
   exists v,
     gordon_model 2 (5 # 100) (10 # 100) = Return (Some v) /\
     0 <= v /\ (0 < 2 -> 0 < v)).
Proof.
  assert (H : 0 <= 2) by discriminate.
  split; [exact H|].
  exact (gordon_model_nonnegative 2 (5 # 100) (10 # 100) H).
Defined.















(** ** Recommendation *)

(** With the three inputs present, a non-empty forecast and a non-zero
    price, the call is the [if]/[elif] chain on margin and growth. *)
Lemma generate_recommendation_present (fair_price current_price : Q)
  (forecast : list Q) :
  forecast <> [] -> ~ current_price == 0 ->
  generate_recommendation (Some fair_price) (Some current_price)
    (Some forecast)
  = let margin := fair_price - current_price in
    let future_growth :=
      (last forecast 0 - current_price) / current_price * 100 in
    if Py.gtb margin 0 && Py.gtb future_growth 0 then
      Return Forte_Oportunidade
    else if Py.gtb margin 0 && Py.leb future_growth 0 then
      Return Oportunidade_Moderada_subvalorizado
    else if Py.leb margin 0 && Py.gtb future_growth 0 then
      Return Oportunidade_Moderada_cautela
    else Return Fraca_Oportunidade.
Proof.
  intros Hne Hcp. unfold generate_recommendation.
  rewrite (Py_last_item_last forecast 0 Hne). cbn [bind].
  rewrite (Py_div_nonzero _ _ Hcp). reflexivity.
Qed.

(** The three cases of a call with present inputs. *)
Lemma generate_recommendation_cases (fair_price current_price : Q)
  (forecast : list Q) :
  let r := generate_recommendation (Some fair_price) (Some current_price)
             (Some forecast) in
  (forecast = [] -> r = Raise IndexError) /\
  (forecast <> [] -> current_price == 0 -> r = Raise ZeroDivisionError) /\
  (forecast <> [] -> ~ current_price == 0 ->
   exists p, r = Return p /\
     In p [Forte_Oportunidade; Oportunidade_Moderada_subvalorizado;
           Oportunidade_Moderada_cautela; Fraca_Oportunidade]).
Proof.
  cbv zeta. split; [intros ->; reflexivity|]. split.
  - intros Hne Hz. unfold generate_recommendation.
    rewrite (Py_last_item_last forecast 0 Hne). cbn [bind].
    now rewrite (Py_div_zero _ _ Hz).
  - intros Hne Hcp.
    rewrite (generate_recommendation_present _ _ _ Hne Hcp). cbv zeta.
    repeat match goal with
           | |- context [if ?b then _ else _] => destruct b
           end;
      eexists; (split; [reflexivity | simpl; tauto]).
Qed.

(** X6: with its three inputs present, [generate_recommendation] raises
    [IndexError] for an empty forecast, whatever the prices: the last
    element is taken before the division, so a zero current price makes no
    difference.  For a non-empty forecast and a non-zero current price it
    never raises: it returns one of the four recommendation pairs. *)
Theorem generate_recommendation_errors (fair_price current_price : Q)
  (forecast : list Q) :
  let r := generate_recommendation (Some fair_price) (Some current_price)
             (Some forecast) in
  (forecast = [] -> r = Raise IndexError) /\
  (forecast <> [] -> ~ current_price == 0 ->
   exists p, r = Return p /\
     In p [Forte_Oportunidade; Oportunidade_Moderada_subvalorizado;
           Oportunidade_Moderada_cautela; Fraca_Oportunidade]).
Proof.
  destruct (generate_recommendation_cases fair_price current_price forecast)
    as [Hempty [_ Hreturn]].
  split; [exact Hempty | exact Hreturn].
Qed.

Lemma generate_recommendation_errors_witness :
  generate_recommendation (Some 10) (Some 0) (Some []) = Raise IndexError /\
  [5] <> [] /\ ~ 8 == 0 /\
  exists p,
    generate_recommendation (Some 10) (Some 8) (Some [5]) = Return p /\
    In p [Forte_Oportunidade; Oportunidade_Moderada_subvalorizado;
          Oportunidade_Moderada_cautela; Fraca_Oportunidade].
Proof.
  assert (H1 : [5] <> []) by discriminate.
  assert (H2 : ~ 8 == 0) by discriminate.
  split.
  - exact (proj1 (generate_recommendation_errors 10 0 []) eq_refl).
  - split; [exact H1|]. split; [exact H2|].
    exact (proj2 (generate_recommendation_errors 10 8 [5]) H1 H2).
Defined.

(** X7: the "insufficient data" pair is returned if and only if one of the
    three inputs is absent: no combination of present inputs produces
    it. *)
Theorem generate_recommendation_insufficient_iff
  (fair_price current_price : option Q) (forecast : option (list Q)) :
  generate_recommendation fair_price current_price forecast
  = Return Dados_insuficientes
  <-> fair_price = None \/ current_price = None \/ forecast = None.
Proof.
  split.
  - destruct fair_price as [fp|]; [|now left].
    destruct current_price as [cp|]; [|now right; left].
    destruct forecast as [f|]; [|now right; right].
    intros H. exfalso.
    destruct (generate_recommendation_cases fp cp f) as [He [Hz Hr]].
    destruct f as [|x f'].
    + rewrite He in H by reflexivity. discriminate.
    + assert (Hne : x :: f' <> []) by discriminate.
      destruct (Qeq_dec cp 0) as [Hcp | Hcp].
      * rewrite (Hz Hne Hcp) in H. discriminate.
      * destruct (Hr Hne Hcp) as [p [Hp Hin]].
        rewrite Hp in H. injection H as ->.
        cbn [In] in Hin.
        destruct Hin as [H | [H | [H | [H | []]]]]; discriminate H.
  - intros H.
    destruct fair_price, current_price, forecast; try reflexivity.
    destruct H as [H | [H | H]]; discriminate.
Qed.

(** X8: for a positive current price the recommendation is decided by two
    price comparisons: fair price against current price, and last forecast
    against current price. *)
Theorem generate_recommendation_by_prices (fair_price current_price : Q)
  (forecast : list Q) :
  forecast <> [] -> 0 < current_price ->
  let last_price := last forecast 0 in
  let r := generate_recommendation (Some fair_price) (Some current_price)
             (Some forecast) in
  (current_price < fair_price /\ current_price < last_price ->
   r = Return Forte_Oportunidade) /\
  (current_price < fair_price /\ last_price <= current_price ->
   r = Return Oportunidade_Moderada_subvalorizado) /\
  (fair_price <= current_price /\ current_price < last_price ->
   r = Return Oportunidade_Moderada_cautela) /\
  (fair_price <= current_price /\ last_price <= current_price ->
   r = Return Fraca_Oportunidade).
Proof.
  intros Hne Hpos. cbv zeta.
  rewrite (generate_recommendation_present _ _ _ Hne) by lra. cbv zeta.
  set (g := (last forecast 0 - current_price) / current_price * 100).
  assert (Hg1 : current_price < last forecast 0 -> 0 < g).
  { intros H. unfold g.
    assert (0 < (last forecast 0 - current_price) / current_price)
      by (apply Qlt_shift_div_l; lra).
    lra. }
  assert (Hg2 : last forecast 0 <= current_price -> g <= 0).
  { intros H. unfold g.
    assert ((last forecast 0 - current_price) / current_price <= 0)
      by (apply Qle_shift_div_r; lra).
    lra. }
  repeat split; intros [Hm Hl];
    [ apply Hg1 in Hl | apply Hg2 in Hl | apply Hg1 in Hl | apply Hg2 in Hl ];
    destruct (Py.gtb (fair_price - current_price) 0) eqn:Em;
    destruct (Py.gtb g 0) eqn:Eg;
    destruct (Py.leb (fair_price - current_price) 0) eqn:Lm;
    destruct (Py.leb g 0) eqn:Lg;
    try apply Py_gtb_true in Em; try apply Py_gtb_false in Em;
    try apply Py_gtb_true in Eg; try apply Py_gtb_false in Eg;
    try apply Py_leb_true in Lm; try apply Py_leb_false in Lm;
    try apply Py_leb_true in Lg; try apply Py_leb_false in Lg;
    cbn [andb]; first [reflexivity | exfalso; lra].
Qed.

Lemma generate_recommendation_by_prices_witness :
  [95; 130] <> [] /\ 0 < 100 /\
  generate_recommendation (Some 90) (Some 100) (Some [95; 130])
  = Return Oportunidade_Moderada_cautela.
Proof.
  assert (H1 : [95; 130] <> []) by discriminate.
  assert (H2 : 0 < 100) by reflexivity.
  split; [exact H1|]. split; [exact H2|].
  apply (generate_recommendation_by_prices 90 100 [95; 130] H1 H2).
  split; [discriminate | reflexivity].
Defined.

Lemma generate_recommendation_insufficient_iff_witness :
  generate_recommendation (Some 3) None (Some [1; 2])
  = Return Dados_insuficientes /\
  generate_recommendation (Some 3) (Some 2) (Some [1; 2])
  <> Return Dados_insuficientes.
Proof.
  split.
  - apply (proj2 (generate_recommendation_insufficient_iff
                    (Some 3) None (Some [1; 2]))).
    right. left. reflexivity.
  - intros H.
    apply (proj1 (generate_recommendation_insufficient_iff
                    (Some 3) (Some 2) (Some [1; 2]))) in H.
    destruct H as [H | [H | H]]; discriminate H.
Defined.

Lemma Py_gtb_scale (k a : Q) : 0 < k -> Py.gtb (k * a) 0 = Py.gtb a 0.
Proof.
  intros Hk. destruct (Py.gtb a 0) eqn:E.
  - apply Py_gtb_true in E. apply Py_gtb_true. nra.
  - apply Py_gtb_false in E. apply Py_gtb_false. nra.
Qed.

Lemma Py_leb_scale (k a : Q) : 0 < k -> Py.leb (k * a) 0 = Py.leb a 0.
Proof.
  intros Hk. destruct (Py.leb a 0) eqn:E.
  - apply Py_leb_true in E. apply Py_leb_true. nra.
  - apply Py_leb_false in E. apply Py_leb_false. nra.
Qed.

Lemma last_map_scale (k : Q) (l : list Q) :
  l <> [] -> last (map (Qmult k) l) 0 = k * last l 0.
Proof.
  intros Hl. destruct (exists_last Hl) as [l' [x ->]].
  rewrite map_app. cbn [map]. now rewrite !last_last.
Qed.

(** X9: the recommendation does not depend on the unit of the prices:
    multiplying the fair price, the current price and every forecast entry
    by the same k > 0 leaves the outcome unchanged, exceptions included. *)
Theorem generate_recommendation_scale (k fair_price current_price : Q)
  (forecast : list Q) :
  0 < k ->
  generate_recommendation (Some (k * fair_price)) (Some (k * current_price))
    (Some (map (Qmult k) forecast))
  = generate_recommendation (Some fair_price) (Some current_price)
      (Some forecast).
Proof.
  intros Hk. destruct forecast as [|x f]; [reflexivity|].
  assert (Hne : x :: f <> []) by discriminate.
  assert (Hne' : map (Qmult k) (x :: f) <> []) by discriminate.
  destruct (Qeq_dec current_price 0) as [Hz | Hnz].
  - unfold generate_recommendation.
    rewrite (Py_last_item_last _ 0 Hne), (Py_last_item_last _ 0 Hne').
    cbn [bind]. rewrite !Py_div_zero; [reflexivity | exact Hz |].
    rewrite Hz. ring.
  - assert (Hnz' : ~ k * current_price == 0).
    { intros H. apply Hnz. nra. }
    rewrite (generate_recommendation_present _ _ _ Hne' Hnz').
    rewrite (generate_recommendation_present _ _ _ Hne Hnz). cbv zeta.
    rewrite (last_map_scale k _ Hne).
    assert (Em : k * fair_price - k * current_price
                 == k * (fair_price - current_price)) by ring.
    assert (Eg : (k * last (x :: f) 0 - k * current_price)
                 / (k * current_price) * 100
                 == (last (x :: f) 0 - current_price) / current_price * 100)
      by (field; split; lra).
    rewrite (Py_gtb_compat _ _ 0 Em), (Py_leb_compat _ _ 0 Em).
    rewrite (Py_gtb_compat _ _ 0 Eg), (Py_leb_compat _ _ 0 Eg).
    rewrite (Py_gtb_scale k _ Hk), (Py_leb_scale k _ Hk).
    reflexivity.
Qed.

Lemma generate_recommendation_scale_witness :
  0 < 100 /\
  generate_recommendation (Some (100 * 12)) (Some (100 * 10))
    (Some (map (Qmult 100) [9; 11]))
  = generate_recommendation (Some 12) (Some 10) (Some [9; 11]).
Proof.
  assert (H : 0 < 100) by reflexivity.
  split; [exact H|].
  exact (generate_recommendation_scale 100 12 10 [9; 11] H).
Defined.

(** ** RSI *)

(** X10: past the warm-up, whenever the average gain g and the average
    loss l are not both zero, the RSI entry is 100 g / (g + l), the usual
    closed form of 100 - 100 / (1 + g / l); this covers l = 0 < g, where
    the code goes through an infinite ratio. *)
Theorem calculate_rsi_manual_closed_form (prices : list Q) (period i : nat) :
  (1 <= period)%nat ->
  (period - 1 <= i)%nat -> (i < List.length prices)%nat ->
  let data := prices_table prices in
  exists g l,
    nth_error (rsi_gain data period) i = Some (Np.Fin g) /\
    nth_error (rsi_loss data period) i = Some (Np.Fin l) /\
    0 <= g /\ 0 <= l /\
    (0 < g + l ->
     exists v, nth_error (calculate_rsi_manual data period) i
               = Some (Np.Fin v) /\
               v == 100 * g / (g + l)).
Proof.
  intros Hp Hge Hi. cbv zeta.
  assert (Hlen := calculate_rsi_manual_length prices period).
  destruct (rsi_entry prices period i Hp Hi) as [_ Hlater].
  destruct Hlater as [g [l [Hg [Hl [Hg0 [Hl0 Hout]]]]]]; [lia|].
  destruct (rsi_of_ratio g l Hg0 Hl0) as [Hpos [Hsat _]].
  exists g, l.
  split; [apply nth_error_of_nth; [rewrite rsi_gain_length; lia | exact Hg]|].
  split; [apply nth_error_of_nth; [rewrite rsi_loss_length; lia | exact Hl]|].
  split; [exact Hg0|]. split; [exact Hl0|].
  intros Hsum.
  destruct (Qlt_le_dec 0 l) as [Hl1 | Hl1].
  - destruct (Hpos Hl1) as [v [Hv [Ev _]]].
    exists v. split; [apply nth_error_of_nth; [lia | now rewrite Hout]|].
    rewrite Ev. field. split; lra.
  - assert (Hlz : l == 0) by lra.
    assert (Hgpos : 0 < g) by lra.
    destruct (Hsat Hlz Hgpos) as [v [Hv Ev]].
    exists v. split; [apply nth_error_of_nth; [lia | now rewrite Hout]|].
    rewrite Ev, Hlz. field. lra.
Qed.

Lemma calculate_rsi_manual_closed_form_witness :
  (1 <= 2)%nat /\ (2 - 1 <= 4)%nat /\
  (4 < List.length [1; 2; 1; 3; 0])%nat /\
  exists g l,
    nth_error (rsi_gain (prices_table [1; 2; 1; 3; 0]) 2) 4
    = Some (Np.Fin g) /\
    nth_error (rsi_loss (prices_table [1; 2; 1; 3; 0]) 2) 4
    = Some (Np.Fin l) /\
    0 <= g /\ 0 <= l /\
    (0 < g + l ->
     exists v, nth_error (calculate_rsi_manual (prices_table [1; 2; 1; 3; 0]) 2)
                 4 = Some (Np.Fin v) /\
               v == 100 * g / (g + l)).
Proof.
  assert (H1 : (1 <= 2)%nat) by lia.
  assert (H2 : (2 - 1 <= 4)%nat) by (simpl; lia).
  assert (H3 : (4 < List.length [1; 2; 1; 3; 0])%nat) by (simpl; lia).
  split; [exact H1|]. split; [exact H2|]. split; [exact H3|].
  exact (calculate_rsi_manual_closed_form [1; 2; 1; 3; 0] 2 4 H1 H2 H3).
Defined.

(** X11: a price series shorter than the period has no defined RSI at all:
    every entry is NaN. *)
Theorem calculate_rsi_manual_short_series (prices : list Q) (period : nat) :
  (List.length prices < period)%nat ->
  calculate_rsi_manual (prices_table prices) period
  = repeat Np.NaN (List.length prices).
Proof.
  intros Hshort.
  assert (Hlen := calculate_rsi_manual_length prices period).
  apply (nth_ext _ _ Np.NaN Np.NaN).
  - now rewrite repeat_length.
  - intros i Hi. rewrite Hlen in Hi.
    rewrite nth_repeat.
    destruct (rsi_entry prices period i) as [Hwarm _]; [lia | exact Hi |].
    apply Hwarm. lia.
Qed.

Lemma calculate_rsi_manual_short_series_witness :
  (List.length [4; 6; 5] < 14)%nat /\
  calculate_rsi_manual (prices_table [4; 6; 5]) 14
  = repeat Np.NaN (List.length [4; 6; 5]).
Proof.
  assert (H : (List.length [4; 6; 5] < 14)%nat) by (simpl; lia).
  split; [exact H|].
  exact (calculate_rsi_manual_short_series [4; 6; 5] 14 H).
Defined.

Lemma combine_map_map {A B C D : Type} (f : A -> C) (g : B -> D)
  (l : list A) (l' : list B) :
  combine (map f l) (map g l')
  = map (fun p => (f (fst p), g (snd p))) (combine l l').
Proof.
  revert l'. induction l as [|a l IH]; intros [|b l']; try reflexivity.
  cbn [map combine fst snd]. now rewrite IH.
Qed.

(** [delta] on finite prices: NaN, then the differences of the adjacent
    pairs. *)
Lemma rsi_delta_cons (x : Q) (t : list Q) :
  rsi_delta (prices_table (x :: t))
  = Np.NaN :: map (fun p => Np.Fin (fst p - snd p)) (combine t (x :: t)).
Proof.
  unfold rsi_delta, prices_table. cbn [Close map Pd.diff].
  f_equal. change (Np.Fin x :: map Np.Fin t) with (map Np.Fin (x :: t)).
  rewrite combine_map_map, map_map. reflexivity.
Qed.

Lemma gain_terms_cons (x : Q) (t : list Q) :
  gain_terms (prices_table (x :: t))
  = Np.Fin 0
    :: map (fun p => if Py.gtb (fst p - snd p) 0
                     then Np.Fin (fst p - snd p) else Np.Fin 0)
           (combine t (x :: t)).
Proof.
  unfold gain_terms, Pd.gt. rewrite where_map, rsi_delta_cons.
  cbn [map]. rewrite map_map. reflexivity.
Qed.

Lemma loss_terms_cons (x : Q) (t : list Q) :
  loss_terms (prices_table (x :: t))
  = Np.Fin (- 0)
    :: map (fun p => if Py.gtb 0 (fst p - snd p)
                     then Np.Fin (- (fst p - snd p)) else Np.Fin (- 0))
           (combine t (x :: t)).
Proof.
  unfold loss_terms, Pd.lt, Pd.neg. rewrite where_map, rsi_delta_cons.
  cbn [map]. rewrite !map_map. f_equal.
  apply map_ext. intros p. unfold Np.ltb. cbn [Np.gtb].
  now destruct (Py.gtb 0 (fst p - snd p)).
Qed.

Lemma gain_terms_length (prices : list Q) :
  List.length (gain_terms (prices_table prices)) = List.length prices.
Proof.
  unfold gain_terms, Pd.gt, rsi_delta. cbn [Close prices_table].
  now rewrite where_length, diff_length, length_map.
Qed.

Lemma loss_terms_length (prices : list Q) :
  List.length (loss_terms (prices_table prices)) = List.length prices.
Proof.
  unfold loss_terms, Pd.lt, Pd.neg, rsi_delta. cbn [Close prices_table].
  now rewrite length_map, where_length, diff_length, length_map.
Qed.

Lemma zero_fin_nonneg (x : Np.float64) : zero_fin x -> nonneg_fin x.
Proof. destruct x; cbn; try contradiction. intros H. lra. Qed.

Lemma pos_fin_nonneg (x : Np.float64) : pos_fin x -> nonneg_fin x.
Proof. destruct x; cbn; try contradiction. intros H. lra. Qed.

Lemma sum_zero_fin (l : Pd.Series) :
  Forall zero_fin l -> exists q, Np.sum l = Np.Fin q /\ q == 0.
Proof.
  induction 1 as [|x l Hx _ [q [Hq Hz]]].
  - exists 0. split; reflexivity.
  - destruct x as [| | |a]; cbn in Hx; try contradiction.
    exists (a + q). cbn [Np.sum fold_right]. fold (Np.sum l). rewrite Hq.
    split; [reflexivity | lra].
Qed.

Lemma sum_pos_fin (l : Pd.Series) :
  Forall nonneg_fin l -> Exists pos_fin l ->
  exists q, Np.sum l = Np.Fin q /\ 0 < q.
Proof.
  intros Hl. induction Hl as [|x l Hx Hl IH]; intros Hex.
  - inversion Hex.
  - destruct (sum_nonneg_fin l Hl) as [q [Hq Hq0]].
    destruct x as [| | |a]; cbn in Hx; try contradiction.
    cbn [Np.sum fold_right]. fold (Np.sum l).
    inversion Hex as [? ? Hpos | ? ? Hrest]; subst.
    + rewrite Hq. exists (a + q). split; [reflexivity|]. cbn in Hpos. lra.
    + destruct (IH Hrest) as [q' [Hq' Hpos]]. rewrite Hq'.
      exists (a + q'). split; [reflexivity | lra].
Qed.

Lemma window_mean_full (w : nat) (l : Pd.Series) :
  (1 <= w)%nat -> List.length l = w -> Forall nonneg_fin l ->
  Pd.window_mean w l = Np.div (Np.sum l) (Np.of_nat w).
Proof.
  intros Hw Hlen Hl. unfold Pd.window_mean.
  rewrite (filter_nonneg_fin l Hl), Hlen.
  rewrite Nat.ltb_irrefl. cbn [orb].
  destruct (Nat.eqb_spec w 0) as [E|_]; [lia | reflexivity].
Qed.

Lemma div_of_nat (q : Q) (w : nat) :
  (1 <= w)%nat ->
  Np.div (Np.Fin q) (Np.of_nat w) = Np.Fin (q / inject_Z (Z.of_nat w)).
Proof.
  intros Hw. assert (Hpos := inject_nat_pos w Hw).
  unfold Np.of_nat, Np.div.
  destruct (Qeq_bool (inject_Z (Z.of_nat w)) 0) eqn:E; [|reflexivity].
  apply Qeq_bool_iff in E. lra.
Qed.

Lemma window_mean_zero (w : nat) (l : Pd.Series) :
  (1 <= w)%nat -> List.length l = w -> Forall zero_fin l ->
  exists q, Pd.window_mean w l = Np.Fin q /\ q == 0.
Proof.
  intros Hw Hlen Hl.
  rewrite (window_mean_full w l Hw Hlen)
    by (eapply Forall_impl; [apply zero_fin_nonneg | exact Hl]).
  destruct (sum_zero_fin l Hl) as [q [-> Hq]].
  rewrite (div_of_nat q w Hw). eexists. split; [reflexivity|].
  rewrite Hq. assert (Hpos := inject_nat_pos w Hw). field. lra.
Qed.

Lemma window_mean_pos (w : nat) (l : Pd.Series) :
  (1 <= w)%nat -> List.length l = w -> Forall nonneg_fin l ->
  Exists pos_fin l ->
  exists q, Pd.window_mean w l = Np.Fin q /\ 0 < q.
Proof.
  intros Hw Hlen Hl Hex.
  rewrite (window_mean_full w l Hw Hlen Hl).
  destruct (sum_pos_fin l Hl Hex) as [q [-> Hq]].
  rewrite (div_of_nat q w Hw). eexists. split; [reflexivity|].
  apply Qlt_shift_div_l; [now apply inject_nat_pos | lra].
Qed.

(** The entry at index [i] is the last one of the window that ends at
    [i]. *)
Lemma trailing_last (w i : nat) (s : Pd.Series) :
  (1 <= w)%nat -> (i < List.length s)%nat ->
  exists pre, Pd.trailing w i s = pre ++ [nth i s Np.NaN].
Proof.
  intros Hw Hi. unfold Pd.trailing.
  assert (E : firstn (i + 1) s = firstn i s ++ [nth i s Np.NaN]).
  { revert i Hi. induction s as [|x s IH]; intros i Hi;
      [cbn in Hi; lia|].
    destruct i as [|i]; [reflexivity|].
    cbn [Nat.add firstn nth app]. f_equal.
    apply IH. cbn in Hi. lia. }
  rewrite E, skipn_app.
  exists (skipn (i + 1 - w) (firstn i s)). f_equal.
  rewrite length_firstn.
  replace (i + 1 - w - Nat.min i (List.length s))%nat with 0%nat by lia.
  reflexivity.
Qed.

Lemma rsi_gain_nth (prices : list Q) (period i : nat) :
  (i < List.length prices)%nat ->
  nth i (rsi_gain (prices_table prices) period) Np.NaN
  = Pd.window_mean period
      (Pd.trailing period i (gain_terms (prices_table prices))).
Proof.
  intros Hi. apply rolling_mean_nth.
  fold (gain_terms (prices_table prices)). now rewrite gain_terms_length.
Qed.

Lemma rsi_loss_nth (prices : list Q) (period i : nat) :
  (i < List.length prices)%nat ->
  nth i (rsi_loss (prices_table prices) period) Np.NaN
  = Pd.window_mean period
      (Pd.trailing period i (loss_terms (prices_table prices))).
Proof.
  intros Hi. apply rolling_mean_nth.
  fold (loss_terms (prices_table prices)). now rewrite loss_terms_length.
Qed.

(** X12: the first RSI entry is never defined, whatever the period: during
    the warm-up for a period of 2 or more, and for period 1 because the
    first delta is NaN, which counts as neither a gain nor a loss and gives
    0/0. *)
Theorem calculate_rsi_manual_first_entry (prices : list Q) (period : nat) :
  prices <> [] -> (1 <= period)%nat ->
  nth_error (calculate_rsi_manual (prices_table prices) period) 0
  = Some Np.NaN.
Proof.
  intros Hne Hp. destruct prices as [|x t]; [congruence|].
  assert (Hi : (0 < List.length (x :: t))%nat) by (cbn; lia).
  apply nth_error_of_nth;
    [rewrite calculate_rsi_manual_length; exact Hi|].
  destruct (Nat.eq_dec period 1) as [-> | Hneq].
  - rewrite (calculate_rsi_manual_nth (x :: t) 1 0 Hi). cbv zeta.
    rewrite (rsi_gain_nth (x :: t) 1 0 Hi), (rsi_loss_nth (x :: t) 1 0 Hi).
    rewrite gain_terms_cons, loss_terms_cons.
    reflexivity.
  - destruct (rsi_entry (x :: t) period 0 Hp Hi) as [Hwarm _].
    apply Hwarm. lia.
Qed.

Lemma calculate_rsi_manual_first_entry_witness :
  [3; 8; 2] <> [] /\ (1 <= 1)%nat /\
  nth_error (calculate_rsi_manual (prices_table [3; 8; 2]) 1) 0
  = Some Np.NaN.
Proof.
  assert (H1 : [3; 8; 2] <> []) by discriminate.
  assert (H2 : (1 <= 1)%nat) by lia.
  split; [exact H1|]. split; [exact H2|].
  exact (calculate_rsi_manual_first_entry [3; 8; 2] 1 H1 H2).
Defined.

(** The adjacent pairs (price[j+1], price[j]) of a strictly increasing
    and of a strictly decreasing series. *)
Lemma adjacent_increasing (x : Q) (t : list Q) :
  Sorted Qlt (x :: t) ->
  Forall (fun p => snd p < fst p) (combine t (x :: t)).
Proof.
  revert x. induction t as [|y t IH]; intros x Hs; [constructor|].
  apply Sorted_inv in Hs. destruct Hs as [Hs Hhd].
  apply HdRel_inv in Hhd. cbn [combine].
  constructor; [exact Hhd | now apply IH].
Qed.

Lemma adjacent_decreasing (x : Q) (t : list Q) :
  Sorted (fun a b => b < a) (x :: t) ->
  Forall (fun p => fst p < snd p) (combine t (x :: t)).
Proof.
  revert x. induction t as [|y t IH]; intros x Hs; [constructor|].
  apply Sorted_inv in Hs. destruct Hs as [Hs Hhd].
  apply HdRel_inv in Hhd. cbn [combine].
  constructor; [exact Hhd | now apply IH].
Qed.

(** The average over a full window of [terms] that ends at [i]: zero when
    all the terms are zero, positive when they are non-negative and the
    one at [i] is positive. *)
Lemma window_at_zero (terms : Pd.Series) (period i : nat) :
  (1 <= period)%nat -> (period - 1 <= i)%nat ->
  (i < List.length terms)%nat -> Forall zero_fin terms ->
  exists q, Pd.window_mean period (Pd.trailing period i terms) = Np.Fin q
            /\ q == 0.
Proof.
  intros Hp Hge Hi Hz. apply window_mean_zero; [exact Hp | |].
  - rewrite trailing_length by exact Hi. lia.
  - now apply trailing_Forall.
Qed.

Lemma window_at_pos (terms : Pd.Series) (period i : nat) :
  (1 <= period)%nat -> (period - 1 <= i)%nat ->
  (i < List.length terms)%nat -> Forall nonneg_fin terms ->
  pos_fin (nth i terms Np.NaN) ->
  exists q, Pd.window_mean period (Pd.trailing period i terms) = Np.Fin q
            /\ 0 < q.
Proof.
  intros Hp Hge Hi Hn Hpos. apply window_mean_pos; [exact Hp | | |].
  - rewrite trailing_length by exact Hi. lia.
  - now apply trailing_Forall.
  - destruct (trailing_last period i terms Hp Hi) as [pre ->].
    apply Exists_app. right. now constructor.
Qed.

(** X13: on a strictly increasing price series the RSI is exactly 100 at
    every index from 1 on that is past the warm-up. *)
Theorem calculate_rsi_manual_increasing (prices : list Q) (period i : nat) :
  Sorted Qlt prices ->
  (1 <= period)%nat -> (1 <= i)%nat -> (period - 1 <= i)%nat ->
  (i < List.length prices)%nat ->
  exists v,
    nth_error (calculate_rsi_manual (prices_table prices) period) i
    = Some (Np.Fin v) /\ v == 100.
Proof.
  intros Hs Hp H1 Hge Hi. destruct prices as [|x t]; [cbn in Hi; lia|].
  assert (Hadj := adjacent_increasing x t Hs).
  assert (Htail : Forall pos_fin
            (map (fun p => if Py.gtb (fst p - snd p) 0
                           then Np.Fin (fst p - snd p) else Np.Fin 0)
                 (combine t (x :: t)))).
  { apply Forall_map. eapply Forall_impl; [|exact Hadj].
    intros p Hlt. cbv beta in Hlt |- *.
    assert (E : Py.gtb (fst p - snd p) 0 = true)
      by (apply Py_gtb_true; lra).
    rewrite E. cbn. lra. }
  assert (Hloss : Forall zero_fin (loss_terms (prices_table (x :: t)))).
  { rewrite loss_terms_cons. constructor; [cbn; lra|].
    apply Forall_map. eapply Forall_impl; [|exact Hadj].
    intros p Hlt. cbv beta in Hlt |- *.
    assert (E : Py.gtb 0 (fst p - snd p) = false)
      by (apply Py_gtb_false; lra).
    rewrite E. cbn. lra. }
  assert (Hgain : Forall nonneg_fin (gain_terms (prices_table (x :: t)))).
  { rewrite gain_terms_cons. constructor; [cbn; lra|].
    eapply Forall_impl; [apply pos_fin_nonneg | exact Htail]. }
  assert (Hgi : pos_fin (nth i (gain_terms (prices_table (x :: t))) Np.NaN)).
  { rewrite gain_terms_cons. destruct i as [|i]; [lia|]. cbn [nth].
    apply Forall_nth; [exact Htail|].
    rewrite length_map, length_combine. cbn [List.length] in *. lia. }
  destruct (window_at_pos _ period i Hp Hge
              ltac:(rewrite gain_terms_length; exact Hi) Hgain Hgi)
    as [g [Eg Hg]].
  destruct (window_at_zero _ period i Hp Hge
              ltac:(rewrite loss_terms_length; exact Hi) Hloss)
    as [l [El Hl]].
  destruct (rsi_of_ratio g l ltac:(lra) ltac:(lra)) as [_ [Hsat _]].
  destruct (Hsat Hl Hg) as [v [Hv Ev]].
  exists v. split; [|exact Ev].
  apply nth_error_of_nth; [rewrite calculate_rsi_manual_length; exact Hi|].
  rewrite (calculate_rsi_manual_nth (x :: t) period i Hi). cbv zeta.
  rewrite (rsi_gain_nth (x :: t) period i Hi),
    (rsi_loss_nth (x :: t) period i Hi), Eg, El.
  exact Hv.
Qed.

Lemma calculate_rsi_manual_increasing_witness :
  Sorted Qlt [1; 2; 4; 7] /\ (1 <= 3)%nat /\ (1 <= 2)%nat /\
  (3 - 1 <= 2)%nat /\ (2 < List.length [1; 2; 4; 7])%nat /\
  exists v,
    nth_error (calculate_rsi_manual (prices_table [1; 2; 4; 7]) 3) 2
    = Some (Np.Fin v) /\ v == 100.
Proof.
  assert (H0 : Sorted Qlt [1; 2; 4; 7])
    by (repeat constructor; reflexivity).
  assert (H1 : (1 <= 3)%nat) by lia.
  assert (H2 : (1 <= 2)%nat) by lia.
  assert (H3 : (3 - 1 <= 2)%nat) by (simpl; lia).
  assert (H4 : (2 < List.length [1; 2; 4; 7])%nat) by (simpl; lia).
  split; [exact H0|]. split; [exact H1|]. split; [exact H2|].
  split; [exact H3|]. split; [exact H4|].
  exact (calculate_rsi_manual_increasing [1; 2; 4; 7] 3 2 H0 H1 H2 H3 H4).
Defined.

(** X14: on a strictly decreasing price series the RSI is exactly 0 at
    every index from 1 on that is past the warm-up. *)
Theorem calculate_rsi_manual_decreasing (prices : list Q) (period i : nat) :
  Sorted (fun a b => b < a) prices ->
  (1 <= period)%nat -> (1 <= i)%nat -> (period - 1 <= i)%nat ->
  (i < List.length prices)%nat ->
  exists v,
    nth_error (calculate_rsi_manual (prices_table prices) period) i
    = Some (Np.Fin v) /\ v == 0.
Proof.
  intros Hs Hp H1 Hge Hi. destruct prices as [|x t]; [cbn in Hi; lia|].
  assert (Hadj := adjacent_decreasing x t Hs).
  assert (Htail : Forall pos_fin
            (map (fun p => if Py.gtb 0 (fst p - snd p)
                           then Np.Fin (- (fst p - snd p))
                           else Np.Fin (- 0))
                 (combine t (x :: t)))).
  { apply Forall_map. eapply Forall_impl; [|exact Hadj].
    intros p Hlt. cbv beta in Hlt |- *.
    assert (E : Py.gtb 0 (fst p - snd p) = true)
      by (apply Py_gtb_true; lra).
    rewrite E. cbn. lra. }
  assert (Hgain : Forall zero_fin (gain_terms (prices_table (x :: t)))).
  { rewrite gain_terms_cons. constructor; [cbn; lra|].
    apply Forall_map. eapply Forall_impl; [|exact Hadj].
    intros p Hlt. cbv beta in Hlt |- *.
    assert (E : Py.gtb (fst p - snd p) 0 = false)
      by (apply Py_gtb_false; lra).
    rewrite E. cbn. lra. }
  assert (Hloss : Forall nonneg_fin (loss_terms (prices_table (x :: t)))).
  { rewrite loss_terms_cons. constructor; [cbn; lra|].
    eapply Forall_impl; [apply pos_fin_nonneg | exact Htail]. }
  assert (Hli : pos_fin (nth i (loss_terms (prices_table (x :: t))) Np.NaN)).
  { rewrite loss_terms_cons. destruct i as [|i]; [lia|]. cbn [nth].
    apply Forall_nth; [exact Htail|].
    rewrite length_map, length_combine. cbn [List.length] in *. lia. }
  destruct (window_at_pos _ period i Hp Hge
              ltac:(rewrite loss_terms_length; exact Hi) Hloss Hli)
    as [l [El Hl]].
  destruct (window_at_zero _ period i Hp Hge
              ltac:(rewrite gain_terms_length; exact Hi) Hgain)
    as [g [Eg Hg]].
  destruct (rsi_of_ratio g l ltac:(lra) ltac:(lra)) as [Hpos _].
  destruct (Hpos Hl) as [v [Hv [Ev _]]].
  exists v. split.
  - apply nth_error_of_nth; [rewrite calculate_rsi_manual_length; exact Hi|].
    rewrite (calculate_rsi_manual_nth (x :: t) period i Hi). cbv zeta.
    rewrite (rsi_gain_nth (x :: t) period i Hi),
      (rsi_loss_nth (x :: t) period i Hi), Eg, El.
    exact Hv.
  - rewrite Ev, Hg. field. lra.
Qed.

Lemma calculate_rsi_manual_decreasing_witness :
  Sorted (fun a b => b < a) [9; 6; 5; 1] /\ (1 <= 2)%nat /\ (1 <= 3)%nat /\
  (2 - 1 <= 3)%nat /\ (3 < List.length [9; 6; 5; 1])%nat /\
  exists v,
    nth_error (calculate_rsi_manual (prices_table [9; 6; 5; 1]) 2) 3
    = Some (Np.Fin v) /\ v == 0.
Proof.
  assert (H0 : Sorted (fun a b => b < a) [9; 6; 5; 1])
    by (repeat constructor; reflexivity).
  assert (H1 : (1 <= 2)%nat) by lia.
  assert (H2 : (1 <= 3)%nat) by lia.
  assert (H3 : (2 - 1 <= 3)%nat) by (simpl; lia).
  assert (H4 : (3 < List.length [9; 6; 5; 1])%nat) by (simpl; lia).
  split; [exact H0|]. split; [exact H1|]. split; [exact H2|].
  split; [exact H3|]. split; [exact H4|].
  exact (calculate_rsi_manual_decreasing [9; 6; 5; 1] 2 3 H0 H1 H2 H3 H4).
Defined.

(** ** Forecast *)

Lemma as_finite_Some (y : Pd.Series) :
  Forall finite y -> exists ys, y = map Np.Fin ys.
Proof.
  induction 1 as [|x y Hx _ [ys ->]]; [now exists []|].
  destruct x as [| | |q]; cbn in Hx; try contradiction.
  now exists (q :: ys).
Qed.

Lemma as_finite_None (y : Pd.Series) :
  Exists (fun x => ~ finite x) y -> Sk.as_finite y = None.
Proof.
  induction 1 as [x y Hx | x y _ IH].
  - destruct x as [| | |q]; try reflexivity. exfalso. apply Hx. exact I.
  - destruct x as [| | |q]; try reflexivity.
    cbn [Sk.as_finite]. now rewrite IH.
Qed.

(** X15: when [predict_future_prices] fails and when it does not.  It
    raises [ValueError] if the price column is empty, or holds a NaN or an
    infinity, or if days <= 0; in every other case it returns a forecast of
    exactly days entries. *)
Theorem predict_future_prices_outcome (data : DataFrame) (days : Z) :
  (Close data = [] \/ Exists (fun x => ~ finite x) (Close data)
   \/ (days <= 0)%Z ->
   predict_future_prices data days = Raise ValueError) /\
  (Close data <> [] -> Forall finite (Close data) -> (0 < days)%Z ->
   exists forecast,
     predict_future_prices data days = Return forecast /\
     List.length forecast = Z.to_nat days).
Proof.
  destruct data as [close]. cbn [Close]. split.
  - intros H. unfold predict_future_prices, Sk.fit. cbn [Close].
    rewrite index_column_length, Nat2Z.id.
    destruct (Nat.eqb_spec (List.length close) 0) as [E0 | E0];
      [reflexivity|].
    destruct H as [H | [H | H]].
    + subst close. cbn in E0. lia.
    + now rewrite (as_finite_None close H).
    + destruct (Sk.as_finite close) as [ys|]; [|reflexivity].
      destruct (negb (List.length close =? List.length ys)%nat);
        [reflexivity|].
      cbn [bind]. unfold Sk.predict. rewrite index_column_length.
      replace (Z.to_nat days) with 0%nat by lia. reflexivity.
  - intros Hne Hfin Hd.
    destruct (as_finite_Some close Hfin) as [prices ->].
    assert (H1 : (1 <= List.length prices)%nat).
    { destruct prices; [cbn in Hne; congruence | cbn; lia]. }
    eexists. split.
    + apply (predict_future_prices_fitted prices days H1 Hd).
    + now rewrite length_map, index_column_length.
Qed.

Lemma predict_future_prices_outcome_witness :
  predict_future_prices {| Close := [Np.Fin 3; Np.NaN; Np.Fin 4] |} 30
  = Raise ValueError /\
  exists forecast,
    predict_future_prices {| Close := [Np.Fin 3; Np.Fin 4] |} 30
    = Return forecast /\
    List.length forecast = Z.to_nat 30.
Proof.
  split.
  - apply (proj1 (predict_future_prices_outcome
                    {| Close := [Np.Fin 3; Np.NaN; Np.Fin 4] |} 30)).
    right. left. apply Exists_cons_tl. apply Exists_cons_hd.
    intros H. exact H.
  - apply (proj2 (predict_future_prices_outcome
                    {| Close := [Np.Fin 3; Np.Fin 4] |} 30)).
    + discriminate.
    + repeat constructor.
    + reflexivity.
Defined.

(** The fitted line has the least sum of squared residuals, and for two
    observations or more it is the only line that has it. *)
Lemma fitted_line_minimal (prices : list Q) (a b : Q) :
  (1 <= List.length prices)%nat ->
  squared_residuals (Sk.coef_ (fitted_line prices))
    (Sk.intercept_ (fitted_line prices)) (index_price_pairs prices)
  <= squared_residuals a b (index_price_pairs prices).
Proof.
  intros H1.
  rewrite (fitted_line_residuals prices a b H1). cbv zeta.
  match goal with
  | |- _ <= _ + qsum (map (fun x => sq (@?f x)) ?l) =>
      assert (Hs := qsum_sq_nonneg f l)
  end.
  cbv beta in Hs. lra.
Qed.

Lemma fitted_line_unique (prices : list Q) (a b : Q) :
  (2 <= List.length prices)%nat ->
  squared_residuals a b (index_price_pairs prices)
  <= squared_residuals (Sk.coef_ (fitted_line prices))
       (Sk.intercept_ (fitted_line prices)) (index_price_pairs prices) ->
  a == Sk.coef_ (fitted_line prices) /\
  b == Sk.intercept_ (fitted_line prices).
Proof.
  intros HL Hle.
  rewrite (fitted_line_residuals prices a b ltac:(lia)) in Hle.
  cbv zeta in Hle.
  match type of Hle with
  | _ + qsum (map (fun x => sq (@?f x)) ?l) <= _ =>
      assert (Hz : forall x, In x l -> f x == 0)
        by (apply (qsum_sq_zero f l); cbv beta; lra)
  end.
  assert (E0 := Hz (idx 0)
                  (index_column_In (List.length prices) 0 ltac:(lia))).
  assert (E1 := Hz (idx 1)
                  (index_column_In (List.length prices) 1 ltac:(lia))).
  cbv beta in E0, E1.
  change (idx 0) with 0 in E0. change (idx 1) with 1 in E1.
  split; lra.
Qed.

Lemma squared_residuals_nonneg (a b : Q) (pairs : list (Q * Q)) :
  0 <= squared_residuals a b pairs.
Proof.
  unfold squared_residuals.
  apply (qsum_sq_nonneg (fun p => snd p - (a * fst p + b))).
Qed.

(** The forecast entries, read off the fitted line. *)
Lemma predict_future_prices_entry (prices : list Q) (days : Z) (k : nat) :
  (1 <= List.length prices)%nat -> (0 < days)%Z -> (k < Z.to_nat days)%nat ->
  exists forecast,
    predict_future_prices (prices_table prices) days = Return forecast /\
    List.length forecast = Z.to_nat days /\
    nth_error forecast k
    = Some (idx (List.length prices + k) * Sk.coef_ (fitted_line prices)
            + Sk.intercept_ (fitted_line prices)).
Proof.
  intros H1 Hd Hk. eexists.
  split; [apply (predict_future_prices_fitted prices days H1 Hd)|].
  split; [now rewrite length_map, index_column_length|].
  rewrite nth_error_map, (index_column_nth_error _ _ _ Hk). reflexivity.
Qed.

Lemma squared_residuals_on_line (a b : Q) (prices : list Q) (s : nat) :
  (forall i, (i < List.length prices)%nat ->
             nth i prices 0 == a * idx (s + i) + b) ->
  squared_residuals a b
    (combine (map idx (seq s (List.length prices))) prices) == 0.
Proof.
  revert s. induction prices as [|p l IH]; intros s H; [reflexivity|].
  cbn [List.length seq map combine]. unfold squared_residuals in *.
  cbn [map fst snd]. rewrite qsum_cons.
  rewrite (IH (S s)).
  - assert (H0 := H 0%nat ltac:(cbn; lia)). cbn [nth] in H0.
    rewrite Nat.add_0_r in H0. unfold sq. rewrite H0. ring.
  - intros i Hi. assert (Hi' := H (S i) ltac:(cbn; lia)).
    cbn [nth] in Hi'. now replace (S s + i)%nat with (s + S i)%nat by lia.
Qed.

(** X16: prices that lie on a line are forecast exactly: if
    price[i] = a i + b for every index of a series of two observations or
    more, then forecast[k] = a (L + k) + b. *)
Theorem predict_future_prices_linear_series (prices : list Q) (a b : Q)
  (days : Z) (k : nat) :
  (2 <= List.length prices)%nat -> (0 < days)%Z -> (k < Z.to_nat days)%nat ->
  (forall i, (i < List.length prices)%nat ->
             nth i prices 0 == a * idx i + b) ->
  exists forecast v,
    predict_future_prices (prices_table prices) days = Return forecast /\
    nth_error forecast k = Some v /\
    v == a * idx (List.length prices + k) + b.
Proof.
  intros HL Hd Hk Hline.
  destruct (predict_future_prices_entry prices days k ltac:(lia) Hd Hk)
    as [forecast [Hf [_ Hnth]]].
  exists forecast. eexists. split; [exact Hf|]. split; [exact Hnth|].
  assert (Hz : squared_residuals a b (index_price_pairs prices) == 0).
  { unfold index_price_pairs. apply squared_residuals_on_line.
    intros i Hi. cbn [Nat.add]. now apply Hline. }
  destruct (fitted_line_unique prices a b HL) as [Ea Eb].
  - rewrite Hz. apply squared_residuals_nonneg.
  - rewrite <- Ea, <- Eb. ring.
Qed.

Lemma predict_future_prices_linear_series_witness :
  (2 <= List.length [10; 13])%nat /\ (0 < 3)%Z /\ (2 < Z.to_nat 3)%nat /\
  exists forecast v,
    predict_future_prices (prices_table [10; 13]) 3 = Return forecast /\
    nth_error forecast 2 = Some v /\
    v == 3 * idx (List.length [10; 13] + 2) + 10.
Proof.
  assert (H1 : (2 <= List.length [10; 13])%nat) by (simpl; lia).
  assert (H2 : (0 < 3)%Z) by lia.
  assert (H3 : (2 < Z.to_nat 3)%nat) by (simpl; lia).
  assert (H4 : forall i, (i < List.length [10; 13])%nat ->
                         nth i [10; 13] 0 == 3 * idx i + 10).
  { intros i Hi. destruct i as [|[|i]]; [reflexivity | reflexivity |].
    cbn in Hi. lia. }
  split; [exact H1|]. split; [exact H2|]. split; [exact H3|].
  exact (predict_future_prices_linear_series [10; 13] 3 10 3 2 H1 H2 H3 H4).
Defined.

(** X17: every forecast is an arithmetic progression whose step is the
    slope of the least-squares line: for a series of two observations or
    more the forecast has days entries, and any two consecutive entries
    differ by the slope of the one line (slope, intercept) that minimizes
    the sum of the squared residuals over the pairs (i, price[i]).  So the
    forecast never turns, and rises or falls with the sign of that
    slope. *)
Theorem predict_future_prices_constant_step (prices : list Q) (days : Z) :
  (2 <= List.length prices)%nat -> (0 < days)%Z ->
  exists slope intercept forecast,
    predict_future_prices (prices_table prices) days = Return forecast /\
    List.length forecast = Z.to_nat days /\
    (forall a b,
       squared_residuals slope intercept (index_price_pairs prices)
       <= squared_residuals a b (index_price_pairs prices)) /\
    (forall a b,
       squared_residuals a b (index_price_pairs prices)
       <= squared_residuals slope intercept (index_price_pairs prices) ->
       a == slope /\ b == intercept) /\
    (forall k v w,
       nth_error forecast k = Some v -> nth_error forecast (S k) = Some w ->
       w - v == slope).
Proof.
  intros HL Hd.
  assert (H1 : (1 <= List.length prices)%nat) by lia.
  assert (Hf := predict_future_prices_fitted prices days H1 Hd).
  assert (Hmin := fun a b => fitted_line_minimal prices a b H1).
  assert (Huniq := fun a b => fitted_line_unique prices a b HL).
  remember (fitted_line prices) as m eqn:Em. clear Em.
  exists (Sk.coef_ m), (Sk.intercept_ m),
    (map (fun x => x * Sk.coef_ m + Sk.intercept_ m)
         (index_column (List.length prices) days)).
  split; [exact Hf|].
  split; [now rewrite length_map, index_column_length|].
  split; [exact Hmin|]. split; [exact Huniq|].
  intros k v w Hv Hw.
  assert (Hk : (S k < Z.to_nat days)%nat).
  { assert (Hs : nth_error
                    (map (fun x => x * Sk.coef_ m + Sk.intercept_ m)
                         (index_column (List.length prices) days)) (S k)
                  <> None) by congruence.
    apply nth_error_Some in Hs.
    now rewrite length_map, index_column_length in Hs. }
  rewrite nth_error_map, index_column_nth_error in Hv by lia.
  rewrite nth_error_map, index_column_nth_error in Hw by lia.
  cbn [option_map] in Hv, Hw.
  assert (Ev : v = idx (List.length prices + k) * Sk.coef_ m + Sk.intercept_ m)
    by congruence.
  assert (Ew : w = idx (List.length prices + S k) * Sk.coef_ m
                   + Sk.intercept_ m) by congruence.
  subst v w.
  replace (List.length prices + S k)%nat with (S (List.length prices + k))
    by lia.
  rewrite idx_succ. ring.
Qed.

(** On [3, 1, 4, 1, 5] the least-squares slope is 2/5, and so is the step
    between the first two forecast entries. *)
Lemma predict_future_prices_constant_step_witness :
  (2 <= List.length [3; 1; 4; 1; 5])%nat /\ (0 < 4)%Z /\
  exists slope intercept forecast v w,
    predict_future_prices (prices_table [3; 1; 4; 1; 5]) 4
    = Return forecast /\
    List.length forecast = 4%nat /\
    (forall a b,
       squared_residuals slope intercept
         (index_price_pairs [3; 1; 4; 1; 5])
       <= squared_residuals a b (index_price_pairs [3; 1; 4; 1; 5])) /\
    nth_error forecast 0 = Some v /\ nth_error forecast 1 = Some w /\
    w - v == slope /\ slope == 2 # 5.
Proof.
  assert (H1 : (2 <= List.length [3; 1; 4; 1; 5])%nat) by (simpl; lia).
  assert (H2 : (0 < 4)%Z) by lia.
  split; [exact H1|]. split; [exact H2|].
  destruct (predict_future_prices_constant_step [3; 1; 4; 1; 5] 4 H1 H2)
    as [slope [intercept [forecast [Hf [Hlen [Hmin [_ Hstep]]]]]]].
  assert (Hrun : exists v w rest,
            predict_future_prices (prices_table [3; 1; 4; 1; 5]) 4
            = Return (v :: w :: rest) /\ w - v == 2 # 5).
  { eexists. eexists. eexists.
    split; [vm_compute; reflexivity | vm_compute; reflexivity]. }
  destruct Hrun as [v [w [rest [Hf' Hvw]]]].
  rewrite Hf in Hf'. injection Hf' as ->.
  assert (Hs : w - v == slope) by (apply (Hstep 0%nat); reflexivity).
  exists slope, intercept, (v :: w :: rest), v, w.
  split; [exact Hf|]. split; [exact Hlen|]. split; [exact Hmin|].
  split; [reflexivity|]. split; [reflexivity|].
  split; [exact Hs|]. rewrite <- Hs. exact Hvw.
Defined.

Lemma f_equal_Qeq_qsum_map {A : Type} (f g : A -> Q) (l : list A) :
  (forall x, f x == g x) -> qsum (map f l) == qsum (map g l).
Proof.
  intros H. induction l as [|x l IH]; [reflexivity|].
  cbn [map]. now rewrite !qsum_cons, IH, H.
Qed.

Lemma squared_residuals_affine (k c a b : Q) (xs ys : list Q) :
  squared_residuals (k * a) (k * b + c)
    (combine xs (map (fun y => k * y + c) ys))
  == k * k * squared_residuals a b (combine xs ys).
Proof.
  revert ys. induction xs as [|x xs IH]; intros [|y ys];
    try (unfold squared_residuals; cbn [combine map qsum fold_right]; ring).
  unfold squared_residuals in *. cbn [map combine fst snd].
  rewrite !qsum_cons, IH. unfold sq. ring.
Qed.

(** X18: the forecast follows a change of unit or of origin of the prices:
    if every price p is replaced by k p + c, with k <> 0, every forecast
    entry f is replaced by k f + c. *)
Theorem predict_future_prices_affine (prices : list Q) (k c : Q) (days : Z)
  (j : nat) :
  (2 <= List.length prices)%nat -> (0 < days)%Z -> (j < Z.to_nat days)%nat ->
  ~ k == 0 ->
  exists forecast forecast' v v',
    predict_future_prices (prices_table prices) days = Return forecast /\
    predict_future_prices
      (prices_table (map (fun p => k * p + c) prices)) days
    = Return forecast' /\
    nth_error forecast j = Some v /\ nth_error forecast' j = Some v' /\
    v' == k * v + c.
Proof.
  intros HL Hd Hj Hk.
  set (prices' := map (fun p => k * p + c) prices).
  assert (HL' : List.length prices' = List.length prices)
    by (unfold prices'; apply length_map).
  destruct (predict_future_prices_entry prices days j ltac:(lia) Hd Hj)
    as [forecast [Hf [_ Hnth]]].
  destruct (predict_future_prices_entry prices' days j ltac:(lia) Hd Hj)
    as [forecast' [Hf' [_ Hnth']]].
  exists forecast, forecast'. eexists. eexists.
  split; [exact Hf|]. split; [exact Hf'|].
  split; [exact Hnth|]. split; [exact Hnth'|].
  set (m := fitted_line prices) in *. set (m' := fitted_line prices') in *.
  assert (Epairs : index_price_pairs prices'
                   = combine (map idx (seq 0 (List.length prices)))
                       (map (fun p => k * p + c) prices)).
  { unfold index_price_pairs. now rewrite HL'. }
  (* the image of the fitted line fits the transformed prices at least as
     well as their own fitted line *)
  assert (Hle : squared_residuals (k * Sk.coef_ m) (k * Sk.intercept_ m + c)
                  (index_price_pairs prices')
                <= squared_residuals (Sk.coef_ m') (Sk.intercept_ m')
                     (index_price_pairs prices')).
  { assert (E' : squared_residuals (Sk.coef_ m') (Sk.intercept_ m')
                   (index_price_pairs prices')
                 == k * k * squared_residuals (Sk.coef_ m' / k)
                              ((Sk.intercept_ m' - c) / k)
                              (index_price_pairs prices)).
    { transitivity
        (squared_residuals (k * (Sk.coef_ m' / k))
           (k * ((Sk.intercept_ m' - c) / k) + c)
           (index_price_pairs prices')).
      - unfold squared_residuals.
        apply (f_equal_Qeq_qsum_map
                 (fun p => sq (snd p
                               - (Sk.coef_ m' * fst p + Sk.intercept_ m')))
                 (fun p => sq (snd p
                               - (k * (Sk.coef_ m' / k) * fst p
                                  + (k * ((Sk.intercept_ m' - c) / k)
                                     + c))))).
        intros p. unfold sq. field. exact Hk.
      - rewrite Epairs. unfold index_price_pairs.
        apply squared_residuals_affine. }
    rewrite E', Epairs, squared_residuals_affine.
    fold (index_price_pairs prices).
    assert (Hmin := fitted_line_minimal prices (Sk.coef_ m' / k)
                      ((Sk.intercept_ m' - c) / k) ltac:(lia)).
    fold m in Hmin.
    assert (Hkk : 0 <= k * k) by nra.
    nra. }
  destruct (fitted_line_unique prices' _ _ ltac:(lia) Hle) as [Ea Eb].
  fold m' in Ea, Eb. rewrite HL'. rewrite <- Ea, <- Eb. ring.
Qed.

Lemma predict_future_prices_affine_witness :
  (2 <= List.length [10; 12; 11])%nat /\ (0 < 2)%Z /\ (1 < Z.to_nat 2)%nat /\
  ~ 100 == 0 /\
  exists forecast forecast' v v',
    predict_future_prices (prices_table [10; 12; 11]) 2 = Return forecast /\
    predict_future_prices
      (prices_table (map (fun p => 100 * p + 5) [10; 12; 11])) 2
    = Return forecast' /\
    nth_error forecast 1 = Some v /\ nth_error forecast' 1 = Some v' /\
    v' == 100 * v + 5.
Proof.
  assert (H1 : (2 <= List.length [10; 12; 11])%nat) by (simpl; lia).
  assert (H2 : (0 < 2)%Z) by lia.
  assert (H3 : (1 < Z.to_nat 2)%nat) by (simpl; lia).
  assert (H4 : ~ 100 == 0) by discriminate.
  split; [exact H1|]. split; [exact H2|]. split; [exact H3|].
  split; [exact H4|].
  exact (predict_future_prices_affine [10; 12; 11] 100 5 2 1 H1 H2 H3 H4).
Defined.

(** ** The analysis of one ticker *)

(** What [gordon_model] binds [fair_price_gordon] to when the script gets
    past line 169: a positive number. *)
Lemma tab1_gordon_step (dividend growth_rate discount_rate : Q) :
  0 < dividend ->
  (discount_rate <= growth_rate ->
   (g <-- uncaught (gordon_model dividend growth_rate discount_rate) ;;
    _ <-- format_2f g ;;
    Completed (Some g)) = Aborted TypeError) /\
  (growth_rate < discount_rate ->
   (g <-- uncaught (gordon_model dividend growth_rate discount_rate) ;;
    _ <-- format_2f g ;;
    Completed (Some g))
   = Completed (Some (Some (dividend / (discount_rate - growth_rate)))) /\
   truthy (Some (dividend / (discount_rate - growth_rate))) = true).
Proof.
  intros Hd. unfold gordon_model. split; intros H.
  - apply Py_leb_true in H. rewrite H. reflexivity.
  - assert (E : Py.leb discount_rate growth_rate = false)
      by now apply Py_leb_false.
    rewrite E, Py_div_nonzero by lra. split; [reflexivity|].
    cbn [truthy]. apply negb_true_iff.
    destruct (Qeq_bool (dividend / (discount_rate - growth_rate)) 0) eqn:Ez;
      [|reflexivity].
    apply Qeq_bool_iff in Ez.
    assert (0 < dividend / (discount_rate - growth_rate))
      by (apply Qlt_shift_div_l; lra).
    lra.
Qed.

Lemma Np_leb_fin (a b : Q) : Np.leb (Np.Fin a) (Np.Fin b) = Py.leb a b.
Proof.
  unfold Np.leb, Np.gtb, Py.gtb, Py.ltb, Py.leb. apply negb_involutive.
Qed.

Lemma Np_gtb_fin (a b : Q) : Np.gtb (Np.Fin a) (Np.Fin b) = Py.gtb a b.
Proof. reflexivity. Qed.

Lemma Np_mul_fin (a b : Q) : Np.mul (Np.Fin a) (Np.Fin b) = Np.Fin (a * b).
Proof. reflexivity. Qed.

(** Away from a zero price, numpy's arithmetic and Python's agree: the
    call of line 209 returns what [generate_recommendation] returns. *)
Lemma generate_recommendation_numpy_nonzero (fair_price : option Q)
  (current_price : Q) (future_prices : option (list Q)) :
  ~ current_price == 0 ->
  generate_recommendation_numpy fair_price current_price future_prices
  = generate_recommendation fair_price (Some current_price) future_prices.
Proof.
  intros Hcp.
  destruct fair_price as [fp|], future_prices as [f|]; try reflexivity.
  unfold generate_recommendation_numpy, generate_recommendation.
  destruct (Py.last_item f) as [lp|e]; cbn [bind]; [|reflexivity].
  rewrite (Py_div_nonzero _ _ Hcp). cbn [bind].
  assert (Ez : Qeq_bool current_price 0 = false).
  { destruct (Qeq_bool current_price 0) eqn:E; [|reflexivity].
    apply Qeq_bool_iff in E. contradiction. }
  cbn [Np.sub Np.neg Np.add Np.div]. rewrite Ez.
  rewrite Np_mul_fin, !Np_leb_fin, !Np_gtb_fin. reflexivity.
Qed.

(** X19: a ticker without a positive mean dividend (none paid, in
    particular) cannot be analysed: [fair_price_gordon] is never assigned,
    and with a non-empty price history the script stops at line 195 on a
    [NameError], whatever the rates and the cash flows are. *)
Theorem tab1_analysis_without_dividend (dividends : list Q)
  (growth_rate discount_rate : Q) (cash_flows : outcome (list Q))
  (terminal_growth_rate : Q) (prices : list Q) :
  mean_dividend dividends <= 0 -> prices <> [] ->
  tab1_analysis dividends growth_rate discount_rate cash_flows
    terminal_growth_rate prices
  = Aborted NameError.
Proof.
  intros Hd Hne. unfold tab1_analysis.
  apply Py_gtb_false in Hd. rewrite Hd. cbn [script_bind].
  rewrite (Py_last_item_last prices 0 Hne). reflexivity.
Qed.

Lemma tab1_analysis_without_dividend_witness :
  mean_dividend [] <= 0 /\ [10; 11; 12] <> [] /\
  tab1_analysis [] (5 # 100) (10 # 100) (Return [100; 120]) (3 # 100)
    [10; 11; 12]
  = Aborted NameError.
Proof.
  assert (H1 : mean_dividend [] <= 0) by discriminate.
  assert (H2 : [10; 11; 12] <> []) by discriminate.
  split; [exact H1|]. split; [exact H2|].
  exact (tab1_analysis_without_dividend [] (5 # 100) (10 # 100)
           (Return [100; 120]) (3 # 100) [10; 11; 12] H1 H2).
Defined.

(** X20: with a positive mean dividend and a discount rate that does not
    exceed the growth rate, [gordon_model] returns [None] and the script
    stops at line 169 on a [TypeError], formatting [None] with [.2f],
    before the cash flows or the prices are looked at. *)
Theorem tab1_analysis_invalid_rates (dividends : list Q)
  (growth_rate discount_rate : Q) (cash_flows : outcome (list Q))
  (terminal_growth_rate : Q) (prices : list Q) :
  0 < mean_dividend dividends -> discount_rate <= growth_rate ->
  tab1_analysis dividends growth_rate discount_rate cash_flows
    terminal_growth_rate prices
  = Aborted TypeError.
Proof.
  intros Hd Hr. unfold tab1_analysis.
  destruct (tab1_gordon_step _ growth_rate discount_rate Hd) as [Hbad _].
  apply Py_gtb_true in Hd. rewrite Hd. rewrite (Hbad Hr). reflexivity.
Qed.

Lemma tab1_analysis_invalid_rates_witness :
  0 < mean_dividend [1; 3] /\ (5 # 100) <= (5 # 100) /\
  tab1_analysis [1; 3] (5 # 100) (5 # 100) (Return [100]) (3 # 100) []
  = Aborted TypeError.
Proof.
  assert (H1 : 0 < mean_dividend [1; 3]) by reflexivity.
  assert (H2 : (5 # 100) <= (5 # 100)) by discriminate.
  split; [exact H1|]. split; [exact H2|].
  exact (tab1_analysis_invalid_rates [1; 3] (5 # 100) (5 # 100)
           (Return [100]) (3 # 100) [] H1 H2).
Defined.

(** X21: when the analysis goes through -- a positive mean dividend, a
    discount rate above the growth rate, a non-empty history of finite
    prices whose last one is not zero -- the fair price of the
    recommendation is the Gordon value, the forecast has 30 entries, and
    the recommendation is one of the four pairs, never "insufficient
    data". *)
Theorem tab1_analysis_completes (dividends : list Q)
  (growth_rate discount_rate : Q) (cash_flows : outcome (list Q))
  (terminal_growth_rate : Q) (prices : list Q) :
  0 < mean_dividend dividends -> growth_rate < discount_rate ->
  prices <> [] -> ~ last prices 0 == 0 ->
  let fair_price :=
    mean_dividend dividends / (discount_rate - growth_rate) in
  exists forecast p,
    predict_future_prices (prices_table prices) 30 = Return forecast /\
    List.length forecast = 30%nat /\
    generate_recommendation (Some fair_price) (Some (last prices 0))
      (Some forecast) = Return p /\
    In p [Forte_Oportunidade; Oportunidade_Moderada_subvalorizado;
          Oportunidade_Moderada_cautela; Fraca_Oportunidade] /\
    tab1_analysis dividends growth_rate discount_rate cash_flows
      terminal_growth_rate prices
    = Completed (Some fair_price, p).
Proof.
  intros Hd Hr Hne Hcp. cbv zeta.
  assert (H1 : (1 <= List.length prices)%nat)
    by (destruct prices; [congruence | cbn; lia]).
  assert (Hf := predict_future_prices_fitted prices 30 H1 ltac:(lia)).
  set (forecast := map _ _) in Hf.
  assert (Hlen : List.length forecast = 30%nat)
    by (unfold forecast; now rewrite length_map, index_column_length).
  assert (Hfne : forecast <> [])
    by (intros E; rewrite E in Hlen; discriminate).
  destruct (generate_recommendation_cases
              (mean_dividend dividends / (discount_rate - growth_rate))
              (last prices 0) forecast) as [_ [_ Hret]].
  destruct (Hret Hfne Hcp) as [p [Hp Hin]].
  exists forecast, p.
  split; [exact Hf|]. split; [exact Hlen|]. split; [exact Hp|].
  split; [exact Hin|].
  unfold tab1_analysis.
  destruct (tab1_gordon_step _ growth_rate discount_rate Hd)
    as [_ Hgood].
  destruct (Hgood Hr) as [Hg Ht].
  apply Py_gtb_true in Hd. rewrite Hd, Hg. cbn [script_bind].
  rewrite (Py_last_item_last prices 0 Hne). cbn [uncaught script_bind].
  rewrite Ht, Hf. cbn [caught script_bind].
  rewrite (Py_last_item_last forecast 0 Hfne).
  cbn [bind uncaught script_bind].
  rewrite (generate_recommendation_numpy_nonzero _ _ _ Hcp), Hp.
  reflexivity.
Qed.

Lemma tab1_analysis_completes_witness :
  0 < mean_dividend [1; 3] /\ (5 # 100) < (10 # 100) /\
  [10; 11; 12] <> [] /\ ~ last [10; 11; 12] 0 == 0 /\
  exists forecast p,
    predict_future_prices (prices_table [10; 11; 12]) 30 = Return forecast /\
    List.length forecast = 30%nat /\
    generate_recommendation
      (Some (mean_dividend [1; 3] / ((10 # 100) - (5 # 100))))
      (Some (last [10; 11; 12] 0)) (Some forecast) = Return p /\
    In p [Forte_Oportunidade; Oportunidade_Moderada_subvalorizado;
          Oportunidade_Moderada_cautela; Fraca_Oportunidade] /\
    tab1_analysis [1; 3] (5 # 100) (10 # 100) (Raise IndexError) (3 # 100)
      [10; 11; 12]
    = Completed
        (Some (mean_dividend [1; 3] / ((10 # 100) - (5 # 100))), p).
Proof.
  assert (H1 : 0 < mean_dividend [1; 3]) by reflexivity.
  assert (H2 : (5 # 100) < (10 # 100)) by reflexivity.
  assert (H3 : [10; 11; 12] <> []) by discriminate.
  assert (H4 : ~ last [10; 11; 12] 0 == 0) by discriminate.
  split; [exact H1|]. split; [exact H2|]. split; [exact H3|].
  split; [exact H4|].
  exact (tab1_analysis_completes [1; 3] (5 # 100) (10 # 100)
           (Raise IndexError) (3 # 100) [10; 11; 12] H1 H2 H3 H4).
Defined.

(** X22: the discounted-cash-flow estimate never reaches the
    recommendation: whatever the cash flows and the terminal growth rate,
    and whether [dcf_model] returns or raises, the outcome of the analysis
    is the same.  The script falls back on it only when the Gordon value is
    [None] or zero, and it never gets to line 195 with such a value. *)
Theorem tab1_analysis_ignores_dcf (dividends : list Q)
  (growth_rate discount_rate : Q) (cash_flows cash_flows' : outcome (list Q))
  (terminal_growth_rate terminal_growth_rate' : Q) (prices : list Q) :
  tab1_analysis dividends growth_rate discount_rate cash_flows
    terminal_growth_rate prices
  = tab1_analysis dividends growth_rate discount_rate cash_flows'
      terminal_growth_rate' prices.
Proof.
  unfold tab1_analysis.
  destruct (Py.gtb (mean_dividend dividends) 0) eqn:Ed.
  - apply Py_gtb_true in Ed.
    destruct (tab1_gordon_step _ growth_rate discount_rate Ed)
      as [Hbad Hgood].
    destruct (Qlt_le_dec growth_rate discount_rate) as [Hr | Hr].
    + destruct (Hgood Hr) as [Hg Ht]. rewrite Hg. cbn [script_bind].
      destruct (uncaught (Py.last_item prices)) as [cp|e]; [|reflexivity].
      cbn [script_bind]. rewrite Ht. reflexivity.
    + rewrite (Hbad Hr). reflexivity.
  - cbn [script_bind].
    destruct (uncaught (Py.last_item prices)) as [cp|e]; reflexivity.
Qed.

(** At a zero price the division of line 123 yields an infinity of the
    sign of the last forecast, or NaN when that forecast is zero too, and
    the comparisons decide on it. *)
Lemma generate_recommendation_numpy_zero (fair_price current_price : Q)
  (future_prices : list Q) (last_price : Q) :
  0 < fair_price -> current_price == 0 ->
  Py.last_item future_prices = Return last_price ->
  generate_recommendation_numpy (Some fair_price) current_price
    (Some future_prices)
  = Return (if Py.gtb last_price 0 then Forte_Oportunidade
            else if Py.ltb last_price 0
                 then Oportunidade_Moderada_subvalorizado
                 else Fraca_Oportunidade).
Proof.
  intros Hfp Hcp Hl. unfold generate_recommendation_numpy.
  rewrite Hl. cbn [bind].
  assert (Ez : Qeq_bool current_price 0 = true) by now apply Qeq_bool_iff.
  assert (Em : Py.gtb (fair_price + - current_price) 0 = true)
    by (apply Py_gtb_true; lra).
  cbn [Np.sub Np.neg Np.add Np.div]. rewrite Ez, Np_gtb_fin, Em.
  cbn [andb]. rewrite Np_leb_fin.
  destruct (Qeq_bool (last_price + - current_price) 0) eqn:E0.
  - apply Qeq_bool_iff in E0.
    assert (E1 : Py.gtb last_price 0 = false)
      by (apply Py_gtb_false; lra).
    assert (E2 : Py.ltb last_price 0 = false)
      by (apply Py_ltb_false; lra).
    rewrite E1, E2.
    change (Np.mul Np.NaN (Np.Fin 100)) with Np.NaN.
    cbn [Np.gtb Np.leb]. rewrite andb_false_r. reflexivity.
  - assert (Hn : ~ last_price + - current_price == 0).
    { intros E. apply Qeq_bool_iff in E. congruence. }
    destruct (Py.ltb 0 (last_price + - current_price)) eqn:E3.
    + apply Py_ltb_true in E3.
      assert (E1 : Py.gtb last_price 0 = true)
        by (apply Py_gtb_true; lra).
      rewrite E1.
      change (Np.mul Np.PInf (Np.Fin 100)) with Np.PInf. reflexivity.
    + apply Py_ltb_false in E3.
      assert (E1 : Py.gtb last_price 0 = false)
        by (apply Py_gtb_false; lra).
      assert (E2 : Py.ltb last_price 0 = true)
        by (apply Py_ltb_true; lra).
      rewrite E1, E2.
      change (Np.mul Np.NInf (Np.Fin 100)) with Np.NInf. reflexivity.
Qed.

(** X26: a last price of zero does not stop the analysis.  The current
    price and the forecast are numpy values, so that the divisions of lines
    204 and 123 yield an infinity or NaN where Python's own floats would
    raise [ZeroDivisionError].  With a positive mean dividend, a discount
    rate above the growth rate and a history that ends on a zero price, the
    script completes with the Gordon value, and the sign of the last
    forecast alone decides: "Forte Oportunidade" when it is positive, the
    undervalued "Oportunidade Moderada" when it is negative, and "Fraca
    Oportunidade" when it is zero, the growth being NaN then and every
    comparison with it false. *)
Theorem tab1_analysis_zero_price (dividends : list Q)
  (growth_rate discount_rate : Q) (cash_flows : outcome (list Q))
  (terminal_growth_rate : Q) (prices : list Q) :
  0 < mean_dividend dividends -> growth_rate < discount_rate ->
  prices <> [] -> last prices 0 == 0 ->
  let fair_price :=
    mean_dividend dividends / (discount_rate - growth_rate) in
  exists forecast p,
    predict_future_prices (prices_table prices) 30 = Return forecast /\
    tab1_analysis dividends growth_rate discount_rate cash_flows
      terminal_growth_rate prices
    = Completed (Some fair_price, p) /\
    (0 < last forecast 0 -> p = Forte_Oportunidade) /\
    (last forecast 0 < 0 -> p = Oportunidade_Moderada_subvalorizado) /\
    (last forecast 0 == 0 -> p = Fraca_Oportunidade).
Proof.
  intros Hd Hr Hne Hcp. cbv zeta.
  assert (H1 : (1 <= List.length prices)%nat)
    by (destruct prices; [congruence | cbn; lia]).
  assert (Hf := predict_future_prices_fitted prices 30 H1 ltac:(lia)).
  set (forecast := map _ _) in Hf.
  assert (Hlen : List.length forecast = 30%nat)
    by (unfold forecast; now rewrite length_map, index_column_length).
  assert (Hfne : forecast <> [])
    by (intros E; rewrite E in Hlen; discriminate).
  assert (Hfp : 0 < mean_dividend dividends / (discount_rate - growth_rate))
    by (apply Qlt_shift_div_l; lra).
  exists forecast.
  exists (if Py.gtb (last forecast 0) 0 then Forte_Oportunidade
          else if Py.ltb (last forecast 0) 0
               then Oportunidade_Moderada_subvalorizado
               else Fraca_Oportunidade).
  split; [exact Hf|]. split.
  - unfold tab1_analysis.
    destruct (tab1_gordon_step _ growth_rate discount_rate Hd)
      as [_ Hgood].
    destruct (Hgood Hr) as [Hg Ht].
    apply Py_gtb_true in Hd. rewrite Hd, Hg. cbn [script_bind].
    rewrite (Py_last_item_last prices 0 Hne). cbn [uncaught script_bind].
    rewrite Ht, Hf. cbn [caught script_bind].
    rewrite (Py_last_item_last forecast 0 Hfne).
    cbn [bind uncaught script_bind].
    rewrite (generate_recommendation_numpy_zero _ _ _ _ Hfp Hcp
               (Py_last_item_last forecast 0 Hfne)).
    reflexivity.
  - split; [|split]; intros H.
    + apply Py_gtb_true in H. rewrite H. reflexivity.
    + assert (E1 : Py.gtb (last forecast 0) 0 = false)
        by (apply Py_gtb_false; lra).
      apply Py_ltb_true in H. rewrite E1, H. reflexivity.
    + assert (E1 : Py.gtb (last forecast 0) 0 = false)
        by (apply Py_gtb_false; lra).
      assert (E2 : Py.ltb (last forecast 0) 0 = false)
        by (apply Py_ltb_false; lra).
      rewrite E1, E2. reflexivity.
Qed.

Lemma tab1_analysis_zero_price_witness :
  0 < mean_dividend [1; 3] /\ (5 # 100) < (10 # 100) /\
  [10; 5; 0] <> [] /\ last [10; 5; 0] 0 == 0 /\
  exists forecast p,
    predict_future_prices (prices_table [10; 5; 0]) 30 = Return forecast /\
    tab1_analysis [1; 3] (5 # 100) (10 # 100) (Return [100]) (3 # 100)
      [10; 5; 0]
    = Completed
        (Some (mean_dividend [1; 3] / ((10 # 100) - (5 # 100))), p) /\
    (0 < last forecast 0 -> p = Forte_Oportunidade) /\
    (last forecast 0 < 0 -> p = Oportunidade_Moderada_subvalorizado) /\
    (last forecast 0 == 0 -> p = Fraca_Oportunidade).
Proof.
  assert (H1 : 0 < mean_dividend [1; 3]) by reflexivity.
  assert (H2 : (5 # 100) < (10 # 100)) by reflexivity.
  assert (H3 : [10; 5; 0] <> []) by discriminate.
  assert (H4 : last [10; 5; 0] 0 == 0) by reflexivity.
  split; [exact H1|]. split; [exact H2|]. split; [exact H3|].
  split; [exact H4|].
  exact (tab1_analysis_zero_price [1; 3] (5 # 100) (10 # 100)
           (Return [100]) (3 # 100) [10; 5; 0] H1 H2 H3 H4).
Defined.

(** ** The ticker list *)

Lemma split_comma_not_nil (s : string) : Str.split_comma s <> [].
Proof.
  induction s as [|c s IH]; cbn [Str.split_comma]; [discriminate|].
  destruct (Ascii.eqb c ","); [discriminate|].
  destruct (Str.split_comma s); discriminate.
Qed.

Lemma split_comma_length (s : string) :
  List.length (Str.split_comma s) = S (count_commas s).
Proof.
  induction s as [|c s IH]; [reflexivity|].
  cbn [Str.split_comma count_commas].
  destruct (Ascii.eqb c ","); cbn [List.length]; [now rewrite IH|].
  destruct (Str.split_comma s) as [|p ps] eqn:E.
  - exfalso. now apply (split_comma_not_nil s).
  - exact IH.
Qed.

(** X23: the ticker list has one entry per comma-separated piece, empty
    pieces included: for a non-empty text, one more than the number of
    commas.  Nothing is filtered: a trailing or a doubled comma gives an
    empty ticker. *)
Theorem ticker_list_length (tickers : string) :
  tickers <> EmptyString ->
  List.length (ticker_list tickers) = S (count_commas tickers).
Proof.
  intros Hne. destruct tickers as [|c s]; [congruence|].
  unfold ticker_list. rewrite length_map. apply split_comma_length.
Qed.

Lemma ticker_list_length_witness :
  "AAPL,,msft,"%string <> EmptyString /\
  List.length (ticker_list "AAPL,,msft,") = 4%nat.
Proof.
  assert (H : "AAPL,,msft,"%string <> EmptyString) by discriminate.
  split; [exact H|].
  exact (ticker_list_length "AAPL,,msft," H).
Defined.

Lemma upper_char_comma (c : ascii) :
  Ascii.eqb (Str.upper_char c) "," = Ascii.eqb c ",".
Proof. destruct c as [[] [] [] [] [] [] [] []]; reflexivity. Qed.

Lemma upper_char_space (c : ascii) :
  Str.is_space (Str.upper_char c) = Str.is_space c.
Proof. destruct c as [[] [] [] [] [] [] [] []]; reflexivity. Qed.

Lemma upper_char_idempotent (c : ascii) :
  Str.upper_char (Str.upper_char c) = Str.upper_char c.
Proof. destruct c as [[] [] [] [] [] [] [] []]; reflexivity. Qed.

Lemma split_comma_pieces (s : string) :
  Forall (fun piece => count_commas piece = 0%nat) (Str.split_comma s).
Proof.
  induction s as [|c s IH]; [repeat constructor|].
  cbn [Str.split_comma]. destruct (Ascii.eqb c ",") eqn:E.
  - constructor; [reflexivity | exact IH].
  - destruct (Str.split_comma s) as [|p ps].
    + constructor; [cbn [count_commas]; now rewrite E | constructor].
    + inversion IH as [|? ? Hp Hps]; subst.
      constructor; [cbn [count_commas]; now rewrite E | exact Hps].
Qed.

Lemma split_comma_no_comma (s : string) :
  count_commas s = 0%nat -> Str.split_comma s = [s].
Proof.
  induction s as [|c s IH]; [reflexivity|].
  cbn [count_commas Str.split_comma].
  destruct (Ascii.eqb c ","); [discriminate|].
  intros H. now rewrite (IH H).
Qed.

Lemma lstrip_commas (s : string) :
  count_commas s = 0%nat -> count_commas (Str.lstrip s) = 0%nat.
Proof.
  induction s as [|c s IH]; [reflexivity|].
  cbn [Str.lstrip]. destruct (Str.is_space c); [|trivial].
  cbn [count_commas]. destruct (Ascii.eqb c ","); [discriminate | exact IH].
Qed.

Lemma rstrip_commas (s : string) :
  count_commas s = 0%nat -> count_commas (Str.rstrip s) = 0%nat.
Proof.
  induction s as [|c s IH]; [reflexivity|].
  cbn [count_commas Str.rstrip]. destruct (Ascii.eqb c ",") eqn:E;
    [discriminate|].
  intros H. specialize (IH H).
  destruct (Str.rstrip s) as [|c' r].
  - destruct (Str.is_space c); [reflexivity|].
    cbn [count_commas]. now rewrite E.
  - cbn [count_commas] in *. now rewrite E.
Qed.

Lemma upper_commas (s : string) :
  count_commas (Str.upper s) = count_commas s.
Proof.
  induction s as [|c s IH]; [reflexivity|].
  cbn [Str.upper count_commas]. now rewrite upper_char_comma, IH.
Qed.

Lemma upper_idempotent (s : string) :
  Str.upper (Str.upper s) = Str.upper s.
Proof.
  induction s as [|c s IH]; [reflexivity|].
  cbn [Str.upper]. now rewrite upper_char_idempotent, IH.
Qed.

Lemma lstrip_upper (s : string) :
  Str.lstrip (Str.upper s) = Str.upper (Str.lstrip s).
Proof.
  induction s as [|c s IH]; [reflexivity|].
  cbn [Str.upper Str.lstrip]. rewrite upper_char_space.
  destruct (Str.is_space c); [exact IH | reflexivity].
Qed.

Lemma rstrip_upper (s : string) :
  Str.rstrip (Str.upper s) = Str.upper (Str.rstrip s).
Proof.
  induction s as [|c s IH]; [reflexivity|].
  cbn [Str.upper Str.rstrip]. rewrite IH, upper_char_space.
  destruct (Str.rstrip s) as [|c' r]; cbn [Str.upper].
  - destruct (Str.is_space c); reflexivity.
  - reflexivity.
Qed.

Lemma lstrip_no_leading_space (s : string) : no_leading_space (Str.lstrip s).
Proof.
  induction s as [|c s IH]; [exact I|].
  cbn [Str.lstrip]. destruct (Str.is_space c) eqn:E; [exact IH | exact E].
Qed.

Lemma lstrip_fixed (s : string) : no_leading_space s -> Str.lstrip s = s.
Proof.
  destruct s as [|c s]; [reflexivity|]. cbn. now intros ->.
Qed.

Lemma rstrip_no_leading_space (s : string) :
  no_leading_space s -> no_leading_space (Str.rstrip s).
Proof.
  destruct s as [|c s]; [trivial|]. cbn [no_leading_space Str.rstrip].
  intros H. destruct (Str.rstrip s); [rewrite H|]; exact H.
Qed.

Lemma rstrip_idempotent (s : string) :
  Str.rstrip (Str.rstrip s) = Str.rstrip s.
Proof.
  induction s as [|c s IH]; [reflexivity|].
  cbn [Str.rstrip]. destruct (Str.rstrip s) as [|c' r] eqn:E.
  - destruct (Str.is_space c) eqn:Es; [reflexivity|].
    cbn [Str.rstrip]. now rewrite Es.
  - cbn [Str.rstrip]. cbn [Str.rstrip] in IH. rewrite IH. reflexivity.
Qed.

Lemma strip_idempotent (s : string) :
  Str.strip (Str.strip s) = Str.strip s.
Proof.
  unfold Str.strip.
  rewrite (lstrip_fixed (Str.rstrip (Str.lstrip s)))
    by apply rstrip_no_leading_space, lstrip_no_leading_space.
  apply rstrip_idempotent.
Qed.

Lemma strip_upper (s : string) :
  Str.strip (Str.upper s) = Str.upper (Str.strip s).
Proof. unfold Str.strip. now rewrite lstrip_upper, rstrip_upper. Qed.

(** X24: every ticker of the list is in normal form: it holds no comma,
    no surrounding blank and no lower-case letter, so that a non-empty
    ticker entered on its own gives back exactly itself. *)
Theorem ticker_list_normal_form (tickers ticker : string) :
  In ticker (ticker_list tickers) -> ticker <> EmptyString ->
  ticker_list ticker = [ticker] /\
  count_commas ticker = 0%nat /\
  Str.strip ticker = ticker /\ Str.upper ticker = ticker.
Proof.
  intros Hin Hne.
  destruct tickers as [|c s]; [contradiction|].
  unfold ticker_list in Hin. apply in_map_iff in Hin.
  destruct Hin as [piece [<- Hpiece]].
  assert (Hc : count_commas piece = 0%nat).
  { assert (Hall := split_comma_pieces (String c s)).
    rewrite Forall_forall in Hall. now apply Hall. }
  set (t := Str.upper (Str.strip piece)) in *.
  assert (Ht : count_commas t = 0%nat).
  { unfold t, Str.strip. rewrite upper_commas.
    now apply rstrip_commas, lstrip_commas. }
  assert (Es : Str.strip t = t)
    by (unfold t; now rewrite strip_upper, strip_idempotent).
  assert (Eu : Str.upper t = t) by (unfold t; apply upper_idempotent).
  split; [|split; [exact Ht | split; [exact Es | exact Eu]]].
  destruct t as [|c' t'] eqn:E; [congruence|].
  unfold ticker_list. rewrite (split_comma_no_comma _ Ht).
  cbn [map]. now rewrite Es, Eu.
Qed.

Lemma ticker_list_normal_form_witness :
  In "MSFT"%string (ticker_list "aapl,  msft ,googl") /\
  "MSFT"%string <> EmptyString /\
  ticker_list "MSFT" = ["MSFT"%string].
Proof.
  assert (H1 : In "MSFT"%string (ticker_list "aapl,  msft ,googl"))
    by (right; left; reflexivity).
  assert (H2 : "MSFT"%string <> EmptyString) by discriminate.
  split; [exact H1|]. split; [exact H2|].
  exact (proj1 (ticker_list_normal_form "aapl,  msft ,googl" "MSFT" H1 H2)).
Defined.

(** ** RSI under a change of unit or origin of the prices *)

Lemma Forall2_map_same {A B C : Type} (R : B -> C -> Prop)
  (f : A -> B) (g : A -> C) (l : list A) :
  (forall x, R (f x) (g x)) -> Forall2 R (map f l) (map g l).
Proof.
  intros H. induction l as [|x l IH]; constructor; [apply H | exact IH].
Qed.

Lemma Forall2_firstn {A B : Type} (R : A -> B -> Prop) (n : nat)
  (l : list A) (l' : list B) :
  Forall2 R l l' -> Forall2 R (firstn n l) (firstn n l').
Proof.
  intros H. revert n. induction H as [|x y l l' Hxy _ IH]; intros [|n];
    cbn [firstn]; constructor; [exact Hxy | apply IH].
Qed.

Lemma Forall2_skipn {A B : Type} (R : A -> B -> Prop) (n : nat)
  (l : list A) (l' : list B) :
  Forall2 R l l' -> Forall2 R (skipn n l) (skipn n l').
Proof.
  intros H. revert n. induction H as [|x y l l' Hxy H IH]; intros [|n];
    cbn [skipn]; try constructor; try assumption. apply IH.
Qed.

Lemma Py_gtb_zero_scale (k a : Q) : 0 < k -> Py.gtb 0 (k * a) = Py.gtb 0 a.
Proof.
  intros Hk. destruct (Py.gtb 0 a) eqn:E.
  - apply Py_gtb_true in E. apply Py_gtb_true. nra.
  - apply Py_gtb_false in E. apply Py_gtb_false. nra.
Qed.

Lemma Py_gtb_compat_r (a b c : Q) : a == b -> Py.gtb c a = Py.gtb c b.
Proof. intros H. unfold Py.gtb, Py.ltb. now rewrite H. Qed.

Section AffinePrices.

Variables k c : Q.
Hypothesis k_pos : 0 < k.

Lemma gain_terms_affine (prices : list Q) :
  Forall2 (scaled k) (gain_terms (prices_table (map (affine k c) prices)))
    (gain_terms (prices_table prices)).
Proof.
  destruct prices as [|x t]; [constructor|].
  cbn [map]. rewrite !gain_terms_cons.
  constructor; [cbn; ring|].
  change (affine k c x :: map (affine k c) t)
    with (map (affine k c) (x :: t)).
  rewrite combine_map_map, map_map.
  apply Forall2_map_same. intros [a b]. cbn [fst snd].
  assert (E : affine k c a - affine k c b == k * (a - b))
    by (unfold affine; ring).
  rewrite (Py_gtb_compat _ _ 0 E), (Py_gtb_scale k _ k_pos).
  destruct (Py.gtb (a - b) 0); cbn; [exact E | ring].
Qed.

Lemma loss_terms_affine (prices : list Q) :
  Forall2 (scaled k) (loss_terms (prices_table (map (affine k c) prices)))
    (loss_terms (prices_table prices)).
Proof.
  destruct prices as [|x t]; [constructor|].
  cbn [map]. rewrite !loss_terms_cons.
  constructor; [cbn; ring|].
  change (affine k c x :: map (affine k c) t)
    with (map (affine k c) (x :: t)).
  rewrite combine_map_map, map_map.
  apply Forall2_map_same. intros [a b]. cbn [fst snd].
  assert (E : affine k c a - affine k c b == k * (a - b))
    by (unfold affine; ring).
  rewrite (Py_gtb_compat_r _ _ 0 E), (Py_gtb_zero_scale k _ k_pos).
  destruct (Py.gtb 0 (a - b)); cbn; [rewrite E; ring | ring].
Qed.

Lemma sum_scaled (l' l : Pd.Series) :
  Forall2 (scaled k) l' l ->
  exists q' q, Np.sum l' = Np.Fin q' /\ Np.sum l = Np.Fin q /\ q' == k * q.
Proof.
  induction 1 as [|x' x l' l Hx _ [q' [q [Hq' [Hq E]]]]].
  - exists 0, 0. repeat split. ring.
  - destruct x' as [| | |a'], x as [| | |a]; cbn in Hx; try contradiction.
    exists (a' + q'), (a + q). cbn [Np.sum fold_right].
    fold (Np.sum l'). fold (Np.sum l). rewrite Hq', Hq.
    repeat split. rewrite Hx, E. ring.
Qed.

(** The averages over the window that ends at [i] are in the same ratio
    as the terms. *)
Lemma window_scaled (terms' terms : Pd.Series) (period i : nat) :
  (1 <= period)%nat -> (period - 1 <= i)%nat ->
  (i < List.length terms)%nat ->
  Forall2 (scaled k) terms' terms ->
  Forall nonneg_fin terms' -> Forall nonneg_fin terms ->
  exists q' q,
    Pd.window_mean period (Pd.trailing period i terms') = Np.Fin q' /\
    Pd.window_mean period (Pd.trailing period i terms) = Np.Fin q /\
    q' == k * q /\ 0 <= q.
Proof.
  intros Hp Hge Hi H2 Hn' Hn.
  assert (Hlen : List.length terms' = List.length terms)
    by (eapply Forall2_length; exact H2).
  rewrite (window_mean_full period (Pd.trailing period i terms') Hp)
    by (try (rewrite trailing_length; lia); now apply trailing_Forall).
  rewrite (window_mean_full period (Pd.trailing period i terms) Hp)
    by (try (rewrite trailing_length; lia); now apply trailing_Forall).
  assert (Ht : Forall2 (scaled k) (Pd.trailing period i terms')
                 (Pd.trailing period i terms))
    by (unfold Pd.trailing; now apply Forall2_skipn, Forall2_firstn).
  destruct (sum_scaled _ _ Ht) as [q' [q [Hs' [Hs E]]]].
  destruct (sum_nonneg_fin (Pd.trailing period i terms)
              (trailing_Forall _ period i terms Hn)) as [q0 [Hs0 Hq0]].
  rewrite Hs in Hs0. injection Hs0 as <-.
  rewrite Hs', Hs, !(div_of_nat _ period Hp).
  assert (Hpos := inject_nat_pos period Hp).
  eexists. eexists. split; [reflexivity|]. split; [reflexivity|]. split.
  - rewrite E. field. lra.
  - apply Qle_shift_div_l; lra.
Qed.

Lemma terms_nonneg (prices : list Q) :
  Forall nonneg_fin (gain_terms (prices_table prices)) /\
  Forall nonneg_fin (loss_terms (prices_table prices)).
Proof.
  split.
  - apply gain_terms_nonneg, diff_fin_or_nan.
  - apply loss_terms_nonneg, diff_fin_or_nan.
Qed.

(** X25: the RSI depends on the prices only up to a positive change of
    unit and a shift of origin: replacing every price p by k p + c, with
    k > 0, gives the same RSI at every index, NaN entries included. *)
Theorem calculate_rsi_manual_affine (prices : list Q) (period i : nat) :
  (1 <= period)%nat ->
  float_eq
    (nth i (calculate_rsi_manual
              (prices_table (map (affine k c) prices)) period)
       Np.NaN)
    (nth i (calculate_rsi_manual (prices_table prices) period) Np.NaN).
Proof.
  intros Hp.
  destruct (Nat.lt_ge_cases i (List.length prices)) as [Hi | Hi].
  2:{ rewrite !nth_overflow
        by (rewrite calculate_rsi_manual_length, ?length_map; lia).
      exact I. }
  assert (Hi' : (i < List.length (map (affine k c) prices))%nat)
    by now rewrite length_map.
  destruct (Nat.lt_ge_cases (i + 1) period) as [Hw | Hw].
  - destruct (rsi_entry prices period i Hp Hi) as [Hwarm _].
    destruct (rsi_entry (map (affine k c) prices) period i Hp Hi')
      as [Hwarm' _].
    rewrite (Hwarm Hw), (Hwarm' Hw). exact I.
  - rewrite (calculate_rsi_manual_nth prices period i Hi).
    rewrite (calculate_rsi_manual_nth (map (affine k c) prices) period i
               Hi').
    cbv zeta.
    rewrite (rsi_gain_nth _ period i Hi), (rsi_loss_nth _ period i Hi).
    rewrite (rsi_gain_nth _ period i Hi'), (rsi_loss_nth _ period i Hi').
    destruct (terms_nonneg prices) as [Hg Hl].
    destruct (terms_nonneg (map (affine k c) prices)) as [Hg' Hl'].
    destruct (window_scaled _ _ period i Hp ltac:(lia)
                ltac:(rewrite gain_terms_length; exact Hi)
                (gain_terms_affine prices) Hg' Hg)
      as [g' [g [-> [-> [Eg Hg0]]]]].
    destruct (window_scaled _ _ period i Hp ltac:(lia)
                ltac:(rewrite loss_terms_length; exact Hi)
                (loss_terms_affine prices) Hl' Hl)
      as [l' [l [-> [-> [El Hl0]]]]].
    assert (Hg0' : 0 <= g') by nra.
    assert (Hl0' : 0 <= l') by nra.
    destruct (rsi_of_ratio g l Hg0 Hl0) as [Hpos [Hsat Hnan]].
    destruct (rsi_of_ratio g' l' Hg0' Hl0') as [Hpos' [Hsat' Hnan']].
    destruct (Qlt_le_dec 0 l) as [Hlp | Hlz].
    + destruct (Hpos Hlp) as [v [-> [Ev _]]].
      destruct (Hpos' ltac:(nra)) as [v' [-> [Ev' _]]].
      cbn [float_eq]. rewrite Ev, Ev', Eg, El. field. split; nra.
    + assert (Ez : l == 0) by lra.
      assert (Ez' : l' == 0) by (rewrite El, Ez; ring).
      destruct (Qlt_le_dec 0 g) as [Hgp | Hgz].
      * destruct (Hsat Ez Hgp) as [v [-> Ev]].
        destruct (Hsat' Ez' ltac:(nra)) as [v' [-> Ev']].
        cbn [float_eq]. now rewrite Ev, Ev'.
      * assert (Egz : g == 0) by lra.
        assert (Egz' : g' == 0) by (rewrite Eg, Egz; ring).
        rewrite (Hnan Ez Egz), (Hnan' Ez' Egz'). exact I.
Qed.

End AffinePrices.

Lemma calculate_rsi_manual_affine_witness :
  0 < 100 /\ (1 <= 2)%nat /\
  float_eq
    (nth 4 (calculate_rsi_manual
              (prices_table (map (affine 100 5) [1; 2; 1; 3; 0])) 2)
       Np.NaN)
    (nth 4 (calculate_rsi_manual (prices_table [1; 2; 1; 3; 0]) 2) Np.NaN).
Proof.
  assert (H1 : 0 < 100) by reflexivity.
  assert (H2 : (1 <= 2)%nat) by lia.
  split; [exact H1|]. split; [exact H2|].
  exact (calculate_rsi_manual_affine 100 5 H1 [1; 2; 1; 3; 0] 2 4 H2).
Defined.
